(** * ZTE router API client ([custom_components/zte_router/api.py])

    A shallow embedding of the class [ZTERouterAPI]: the JSON-RPC envelope
    construction, the single and the batched call, the login handshake and
    the periodic update, with Python's dynamic typing and exceptions written
    out.  The network is an explicit script of replies; the bodies the client
    posts are recorded in order.

    Conventions.  A server, however it decides what to answer, shows the
    client a sequence of replies and nothing more, so a statement over all
    scripts is a statement over all servers.  Log calls are left out, except
    where evaluating their arguments can raise.  Only exceptions below
    [Exception] are modelled (no task cancellation). *)

From Stdlib Require Import ZArith List String Ascii Bool Lia.
From Stdlib Require Import Sorted DecimalString.
From Stdlib Require Import SpecFloat.
From Stdlib Require Finite.
Import ListNotations.

Set Warnings "-register-all".
Local Open Scope string_scope.
Local Open Scope Z_scope.

(** ** Python values as they come out of [json] *)

Module Py.

(** What [response.json()] can produce.  [JNull] is Python's [None], a
    [JObj] is a [dict] in insertion order with [str] keys, a [JFloat] is an
    IEEE double ([json] also reads [NaN] and [Infinity]).  A [str] is held as
    the bytes of its UTF-8 encoding, so [str.encode()] is the identity. *)
Inductive value : Type :=
| JNull
| JBool (b : bool)
| JInt (n : Z)
| JFloat (f : spec_float)
| JStr (s : string)
| JList (items : list value)
| JObj (fields : list (string * value)).

Definition dict : Type := list (string * value).

(** Exceptions, all subclasses of [Exception]. *)
Inductive exn : Type :=
| ClientError      (* aiohttp / timeout / bad status / undecodable body *)
| AttributeError
| TypeError
| KeyError
| IndexError.

(** [bool(v)] *)
Definition truthy (v : value) : bool :=
  match v with
  | JNull => false
  | JBool b => b
  | JInt n => negb (n =? 0)
  | JFloat (S754_zero _) => false
  | JFloat _ => true
  | JStr s => negb (String.eqb s "")
  | JList l => match l with [] => false | _ => true end
  | JObj d => match d with [] => false | _ => true end
  end.

(** [f == n] for a float and an int: Python compares the exact values. *)
Definition float_eq_int (f : spec_float) (n : Z) : bool :=
  match f with
  | S754_zero _ => n =? 0
  | S754_finite s m e =>
      let v := if s then Z.neg m else Z.pos m in
      if 0 <=? e then v * 2 ^ e =? n else v =? n * 2 ^ (- e)
  | _ => false
  end.

(** [v == n] for an int literal [n]; [bool] is a subclass of [int]. *)
Definition eq_int (v : value) (n : Z) : bool :=
  match v with
  | JInt m => m =? n
  | JBool b => (if b then 1 else 0) =? n
  | JFloat f => float_eq_int f n
  | _ => false
  end.

(** [v == s] for a str literal [s]. *)
Definition eq_str (v : value) (s : string) : bool :=
  match v with
  | JStr t => String.eqb t s
  | _ => false
  end.

(** [d.get(k)] on a dict, as an option. *)
Fixpoint lookup (k : string) (d : dict) : option value :=
  match d with
  | [] => None
  | (k', v) :: rest => if String.eqb k' k then Some v else lookup k rest
  end.

(** [k in d] on a dict. *)
Definition has_key (k : string) (d : dict) : bool :=
  match lookup k d with Some _ => true | None => false end.

(** [d.get(k, default)] *)
Definition get_default (k : string) (default : value) (d : dict) : value :=
  match lookup k d with Some v => v | None => default end.

(** [v or {}] *)
Definition or_empty (v : value) : value :=
  if truthy v then v else JObj [].

End Py.
Import Py.

(** ** Outcomes, state and sequencing *)

Inductive outcome (A : Type) : Type :=
| Return (a : A)
| Raise (e : exn).
Arguments Return {A} a.
Arguments Raise {A} e.

(** What the transport does with one POST: either [session.post],
    [raise_for_status] or [response.json] raises, or a JSON value is read. *)
Inductive reply : Type :=
| Fails
| Body (data : value).

(** The network as the client meets it: the replies still to come, each
    with the clock reading (epoch milliseconds) at the time of the request,
    and the requests posted so far, oldest first, as (url, json body). *)
Record Net : Type := {
  script : list (Z * reply);
  sent : list (string * value)
}.

(** aiohttp session held in [self._session]. *)
Inductive http : Type :=
| NoSession
| Open
| Closed.

Record ZTERouterAPI : Type := {
  host : string;
  password : option string;
  base_url : string;
  session_id : value;
  _session : http;
  _request_id : Z
}.

Record State : Type := {
  self : ZTERouterAPI;
  net : Net
}.

Definition M (A : Type) : Type := State -> outcome A * State.

Definition ret {A} (a : A) : M A := fun st => (Return a, st).

Definition raise {A} (e : exn) : M A := fun st => (Raise e, st).

Definition bind {A B} (m : M A) (k : A -> M B) : M B :=
  fun st =>
    match m st with
    | (Return a, st') => k a st'
    | (Raise e, st') => (Raise e, st')
    end.

(** [try: m  except Exception: h] ; state changes made before the raise
    stay. *)
Definition try_except {A} (m : M A) (h : exn -> M A) : M A :=
  fun st =>
    match m st with
    | (Return a, st') => (Return a, st')
    | (Raise e, st') => h e st'
    end.

Notation "x <- m ;; k" := (bind m (fun x => k))
  (at level 61, m at next level, right associativity).
Notation "m ;;; k" := (bind m (fun _ => k))
  (at level 61, right associativity).

Definition get_self : M ZTERouterAPI := fun st => (Return (self st), st).

Definition set_self (c : ZTERouterAPI) : M unit :=
  fun st => (Return tt, {| self := c; net := net st |}).

Definition lift {A} (o : outcome A) : M A := fun st => (o, st).

(** ** The hash primitive behind [hashlib.sha256(...).hexdigest()] *)

Module Sha256.

Definition w32 (x : Z) : Z := Z.land x 0xffffffff.

Definition add32 (x y : Z) : Z := w32 (x + y).

Definition rotr (n x : Z) : Z :=
  Z.lor (Z.shiftr x n) (w32 (Z.shiftl x (32 - n))).

Definition Ch (x y z : Z) : Z :=
  Z.lxor (Z.land x y) (Z.land (Z.lxor x 0xffffffff) z).

Definition Maj (x y z : Z) : Z :=
  Z.lxor (Z.lxor (Z.land x y) (Z.land x z)) (Z.land y z).

Definition Sigma0 (x : Z) : Z :=
  Z.lxor (Z.lxor (rotr 2 x) (rotr 13 x)) (rotr 22 x).

Definition Sigma1 (x : Z) : Z :=
  Z.lxor (Z.lxor (rotr 6 x) (rotr 11 x)) (rotr 25 x).

Definition sigma0 (x : Z) : Z :=
  Z.lxor (Z.lxor (rotr 7 x) (rotr 18 x)) (Z.shiftr x 3).

Definition sigma1 (x : Z) : Z :=
  Z.lxor (Z.lxor (rotr 17 x) (rotr 19 x)) (Z.shiftr x 10).

(** The first 64 primes. *)
Definition primes : list Z :=
  [ 2; 3; 5; 7; 11; 13; 17; 19; 23; 29; 31; 37; 41; 43; 47; 53;
    59; 61; 67; 71; 73; 79; 83; 89; 97; 101; 103; 107; 109; 113; 127; 131;
    137; 139; 149; 151; 157; 163; 167; 173; 179; 181; 191; 193; 197; 199;
    211; 223; 227; 229; 233; 239; 241; 251; 257; 263; 269; 271; 277; 281;
    283; 293; 307; 311 ].

(** The largest [x] between [lo] and [hi] whose cube is at most [n], by
    bisection. *)
Fixpoint cube_root (fuel : nat) (n lo hi : Z) : Z :=
  match fuel with
  | O => lo
  | S fuel' =>
      if hi <=? lo then lo
      else
        let mid := (lo + hi + 1) / 2 in
        if mid * mid * mid <=? n
        then cube_root fuel' n mid hi
        else cube_root fuel' n lo (mid - 1)
  end.

(** The round constants: the first 32 bits of the fractional part of the
    cube root of each prime. *)
Definition K : list Z :=
  Eval vm_compute in
    map (fun p => w32 (cube_root 64 (Z.shiftl p 96) 0 (Z.shiftl 1 40))) primes.

(** The initial hash value: the same of the square roots of the first
    eight. *)
Definition H0 : list Z :=
  Eval vm_compute in
    map (fun p => w32 (Z.sqrt (Z.shiftl p 64))) (firstn 8 primes).

Definition bytes_of (s : string) : list Z :=
  map (fun a => Z.of_N (N_of_ascii a)) (list_ascii_of_string s).

(** Big-endian bytes of [x], [n] of them. *)
Fixpoint be_bytes (n : nat) (x : Z) : list Z :=
  match n with
  | O => []
  | S n' => Z.land (Z.shiftr x (8 * Z.of_nat n')) 0xff :: be_bytes n' x
  end.

(** Message, the byte 0x80, zeros up to 56 mod 64, the bit length on 8
    bytes. *)
Definition pad (msg : list Z) : list Z :=
  let len := Z.of_nat (List.length msg) in
  let zeros := Z.to_nat ((55 - len) mod 64) in
  msg ++ 0x80 :: repeat 0 zeros ++ be_bytes 8 (8 * len).

Fixpoint words (fuel : nat) (bs : list Z) : list Z :=
  match fuel, bs with
  | S fuel', b0 :: b1 :: b2 :: b3 :: rest =>
      (Z.shiftl b0 24 + Z.shiftl b1 16 + Z.shiftl b2 8 + b3)
        :: words fuel' rest
  | _, _ => []
  end.

(** The message schedule, most recent word first: [recent] holds
    W[t-1], W[t-2], ... *)
Fixpoint expand (n : nat) (recent : list Z) : list Z :=
  match n with
  | O => recent
  | S n' =>
      let w := add32 (add32 (sigma1 (nth 1 recent 0)) (nth 6 recent 0))
                     (add32 (sigma0 (nth 14 recent 0)) (nth 15 recent 0)) in
      expand n' (w :: recent)
  end.

Definition schedule (block : list Z) : list Z :=
  rev (expand 48 (rev block)).

Definition round (h : list Z) (kw : Z * Z) : list Z :=
  match h with
  | [a; b; c; d; e; f; g; hh] =>
      let t1 := add32 (add32 (add32 hh (Sigma1 e)) (add32 (Ch e f g) (fst kw)))
                      (snd kw) in
      let t2 := add32 (Sigma0 a) (Maj a b c) in
      [add32 t1 t2; a; b; c; add32 d t1; e; f; g]
  | _ => h
  end.

Definition compress (h : list Z) (block : list Z) : list Z :=
  map (fun p => add32 (fst p) (snd p))
      (combine h (fold_left round (combine K (schedule block)) h)).

Fixpoint blocks (fuel : nat) (ws : list Z) : list (list Z) :=
  match fuel, ws with
  | S fuel', _ :: _ => firstn 16 ws :: blocks fuel' (skipn 16 ws)
  | _, _ => []
  end.

Definition digest (msg : list Z) : list Z :=
  let bs := pad msg in
  let ws := words (List.length bs) bs in
  flat_map (be_bytes 4) (fold_left compress (blocks (List.length ws) ws) H0).

Definition hex_digit (n : Z) : ascii :=
  nth (Z.to_nat n) (list_ascii_of_string "0123456789abcdef") "0"%char.

Definition hex (bs : list Z) : string :=
  string_of_list_ascii
    (flat_map (fun b => [hex_digit (Z.shiftr b 4); hex_digit (Z.land b 0xf)])
              bs).

(** [hashlib.sha256(s.encode()).hexdigest()] *)
Definition hexdigest (s : string) : string := hex (digest (bytes_of s)).

End Sha256.

(** [str.upper()], on the ASCII letters (it is only ever applied to hex
    digests). *)
Definition upper_char (a : ascii) : ascii :=
  let n := N_of_ascii a in
  if ((97 <=? n) && (n <=? 122))%N then ascii_of_N (n - 32) else a.

Fixpoint upper (s : string) : string :=
  match s with
  | EmptyString => EmptyString
  | String a rest => String (upper_char a) (upper rest)
  end.

(** ** Dynamic operations that can raise *)

(** [v.get(k, default)]: only a dict has [get]. *)
Definition py_get (v : value) (k : string) (default : value) : outcome value :=
  match v with
  | JObj d => Return (get_default k default d)
  | _ => Raise AttributeError
  end.

(** [k in v] for a str [k]: key of a dict, element of a list, substring of
    a str; anything else is not iterable. *)
Definition py_contains (k : string) (v : value) : outcome bool :=
  match v with
  | JObj d => Return (has_key k d)
  | JList l => Return (existsb (fun x => eq_str x k) l)
  | JStr s =>
      Return (match String.index 0 k s with Some _ => true | None => false end)
  | _ => Raise TypeError
  end.

(** [v[k]] for a str [k]. *)
Definition py_getitem (v : value) (k : string) : outcome value :=
  match v with
  | JObj d =>
      match lookup k d with Some x => Return x | None => Raise KeyError end
  | _ => Raise TypeError
  end.

(** [s + v] for a str [s]. *)
Definition py_concat (s : string) (v : value) : outcome string :=
  match v with
  | JStr t => Return (s ++ t)
  | _ => Raise TypeError
  end.

(** [v[:8] + "..."], the argument of two log calls: it is evaluated before
    the logger sees it.  Only a str passes (a list slices but does not add to
    a str; the others do not slice). *)
Definition py_abbrev (v : value) : outcome string :=
  match v with
  | JStr s => Return (String.substring 0 8 s ++ "...")
  | _ => Raise TypeError
  end.

(** [l[i]] on a list. *)
Definition py_index (l : list value) (i : nat) : outcome value :=
  match nth_error l i with
  | Some v => Return v
  | None => Raise IndexError
  end.

(** ** The client *)

Definition UNAUTHENTICATED_SESSION : string :=
  "00000000000000000000000000000000".

Definition __init__ (host : string) (password : option string) : ZTERouterAPI :=
  {| host := host;
     password := password;
     base_url := "http://" ++ host ++ "/ubus/";
     session_id := JStr UNAUTHENTICATED_SESSION;
     _session := NoSession;
     _request_id := 1 |}.

Definition set_session_id (v : value) (c : ZTERouterAPI) : ZTERouterAPI :=
  {| host := host c; password := password c; base_url := base_url c;
     session_id := v; _session := _session c; _request_id := _request_id c |}.

Definition set__session (h : http) (c : ZTERouterAPI) : ZTERouterAPI :=
  {| host := host c; password := password c; base_url := base_url c;
     session_id := session_id c; _session := h; _request_id := _request_id c |}.

Definition set__request_id (n : Z) (c : ZTERouterAPI) : ZTERouterAPI :=
  {| host := host c; password := password c; base_url := base_url c;
     session_id := session_id c; _session := _session c; _request_id := n |}.

(** [self.session_id != UNAUTHENTICATED_SESSION] *)
Definition authenticated (c : ZTERouterAPI) : bool :=
  negb (eq_str (session_id c) UNAUTHENTICATED_SESSION).

(** [bool(self.password)] *)
Definition has_password (c : ZTERouterAPI) : bool :=
  match password c with
  | Some p => negb (String.eqb p "")
  | None => false
  end.

(** Opens the aiohttp session when there is none or it was closed. *)
Definition _get_session : M unit :=
  c <- get_self ;;
  match _session c with
  | Open => ret tt
  | NoSession | Closed => set_self (set__session Open c)
  end.

(** Closes the aiohttp session if one is open. *)
Definition close : M unit :=
  c <- get_self ;;
  match _session c with
  | Open => set_self (set__session Closed c)
  | NoSession | Closed => ret tt
  end.

(** The request dict, in the order its keys are written; the counter moves
    on after the dict is built. *)
Definition _create_rpc_request (namespace method : string)
    (params : option dict) : M value :=
  c <- get_self ;;
  let params := match params with None => [] | Some d => d end in
  let request :=
    JObj [ ("jsonrpc", JStr "2.0");
           ("id", JInt (_request_id c));
           ("method", JStr "call");
           ("params", JList [session_id c; JStr namespace; JStr method;
                             JObj params]) ] in
  set_self (set__request_id (_request_id c + 1) c) ;;;
  ret request.

(** [f"{self.base_url}?t={int(time.time() * 1000)}"]: the clock is read off
    the next script entry (0 once the script has run out). *)
Definition timestamp_url : M string :=
  fun st =>
    let ms := match script (net st) with (t, _) :: _ => t | [] => 0 end in
    (Return (base_url (self st) ++ "?t="
             ++ NilZero.string_of_int (Z.to_int ms)),
     st).

(** [session.post(url, json=body)], [raise_for_status()] and
    [response.json(content_type=None)] in one step: the request is recorded,
    the next reply is consumed; a network with nothing left to say fails. *)
Definition post (url : string) (body : value) : M value :=
  fun st =>
    let out := (sent (net st) ++ [(url, body)])%list in
    match script (net st) with
    | [] => (Raise ClientError,
             {| self := self st; net := {| script := []; sent := out |} |})
    | (_, r) :: rest =>
        let st' := {| self := self st;
                      net := {| script := rest; sent := out |} |} in
        match r with
        | Fails => (Raise ClientError, st')
        | Body data => (Return data, st')
        end
    end.

(** [result[1]] when [result] is a list of more than one element, else
    [None]. *)
Definition second_of (result : value) : value :=
  match result with
  | JList (_ :: payload :: _) => payload
  | _ => JNull
  end.

(** A single call.  The session, the request and the url are made before
    the [try]; everything from the POST on is inside it. *)
Definition _call_api (namespace method : string) (params : option dict)
    : M value :=
  _get_session ;;;
  request <- _create_rpc_request namespace method params ;;
  url <- timestamp_url ;;
  try_except
    (data <- post url (JList [request]) ;;
     match data with
     | JList [] => ret JNull
     | JList (first :: _) =>
         result <- lift (py_get first "result" (JList [])) ;;
         ret (second_of result)
     | _ => ret JNull
     end)
    (fun _ => ret JNull).

(** A call descriptor: namespace, method, parameters or [None]. *)
Definition call : Type := string * string * option dict.

(** The list comprehension building one request per call, left to right. *)
Fixpoint create_requests (calls : list call) : M (list value) :=
  match calls with
  | [] => ret []
  | (namespace, method, params) :: rest =>
      r <- _create_rpc_request namespace method params ;;
      rs <- create_requests rest ;;
      ret (r :: rs)
  end.

(** The [for idx, item in enumerate(data)] loop of [_call_api_batch] with
    its two accumulators.  The log calls in it only read [calls] under an
    index guard and cannot raise; [item["error"].get("code")] can. *)
Fixpoint batch_items (data : list value) (results : list value)
    (access_denied_count : Z) : outcome (list value * Z) :=
  match data with
  | [] => Return (results, access_denied_count)
  | item :: rest =>
      match item with
      | JObj d =>
          match lookup "error" d with
          | Some error =>
              match py_get error "code" JNull with
              | Return error_code =>
                  batch_items rest (results ++ [JNull])%list
                    (if eq_int error_code (-32002)
                     then access_denied_count + 1
                     else access_denied_count)
              | Raise e => Raise e
              end
          | None =>
              batch_items rest
                (results ++ [second_of (get_default "result" (JList []) d)])%list
                access_denied_count
          end
      | _ => batch_items rest (results ++ [JNull])%list access_denied_count
      end
  end.

(** Several calls in one POST.  The results are those of the loop; the
    token is reset after it; a body that is no list and any exception give
    [[None] * len(calls)]. *)
Definition _call_api_batch (calls : list call) : M (list value) :=
  _get_session ;;;
  requests <- create_requests calls ;;
  url <- timestamp_url ;;
  try_except
    (data <- post url (JList requests) ;;
     match data with
     | JList items =>
         looped <- lift (batch_items items [] 0) ;;
         c <- get_self ;;
         (if (2 <=? snd looped) && authenticated c
          then set_self (set_session_id (JStr UNAUTHENTICATED_SESSION) c)
          else ret tt) ;;;
         ret (fst looped)
     | _ => ret (repeat JNull (List.length calls))
     end)
    (fun _ => ret (repeat JNull (List.length calls))).

(** [result_code in (a, b)] for the three pairs the login compares with. *)
Definition code_is (n : Z) (s : string) (result_code : value) : bool :=
  eq_int result_code n || eq_str result_code s.

(** The stored password hashed with the salt of this login. *)
Definition login_digest (pw : string) (salt : value) : outcome string :=
  let hashed := upper (Sha256.hexdigest pw) in
  match py_concat hashed salt with
  | Return salted => Return (upper (Sha256.hexdigest salted))
  | Raise e => Raise e
  end.

(** The login.  [not self.password] covers [None] and the empty string.
    Everything after that test is inside the [try]; the three failure
    branches differ in their log lines only. *)
Definition async_login : M bool :=
  c <- get_self ;;
  match password c with
  | None => ret false
  | Some "" => ret false
  | Some pw =>
      try_except
        (login_info <- _call_api "zwrt_web" "web_login_info" None ;;
         found <- (if truthy login_info
                   then lift (py_contains "zte_web_sault" login_info)
                   else ret false) ;;
         if negb found then ret false else
         salt <- lift (py_getitem login_info "zte_web_sault") ;;
         hashed_with_salt <- lift (login_digest pw salt) ;;
         login_result <-
           _call_api "zwrt_web" "web_login"
             (Some [("password", JStr (upper hashed_with_salt))]) ;;
         if truthy login_result then
           result_code <- lift (py_get login_result "result" JNull) ;;
           if code_is 0 "0" result_code then
             c <- get_self ;;
             token <- lift (py_get login_result "ubus_rpc_session"
                                   (session_id c)) ;;
             set_self (set_session_id token c) ;;;
             ret true
           else if code_is 1 "1" result_code then ret false
           else if code_is 2 "2" result_code then ret false
           else ret false
         else ret false)
        (fun _ => ret false)
  end.

(** The update.  Nothing here is inside a [try]: the two abbreviations of
    the token (arguments of log calls), the five index reads and the
    [results[2].get] of the last log call raise to the caller. *)
Definition async_update : M value :=
  c <- get_self ;;
  (if has_password c && eq_str (session_id c) UNAUTHENTICATED_SESSION then
     login_success <- async_login ;;
     if login_success then
       c <- get_self ;;
       lift (py_abbrev (session_id c)) ;;; ret tt
     else ret tt
   else ret tt) ;;;
  c <- get_self ;;
  let router_method :=
    if authenticated c then "router_get_status"
    else "router_get_status_no_auth" in
  lift (py_abbrev (session_id c)) ;;;
  let calls : list call :=
    [ ("zwrt_router.api", router_method, None);
      ("zte_nwinfo_api", "nwinfo_get_netinfo", None);
      ("zwrt_data", "get_wwandst",
         Some [("source_module", JStr "web"); ("cid", JInt 1);
               ("type", JInt 4)]);
      ("zwrt_router.api", "router_get_user_list_num", None);
      ("zwrt_wlan", "report", None) ] in
  results <- _call_api_batch calls ;;
  r0 <- lift (py_index results 0) ;;
  r1 <- lift (py_index results 1) ;;
  r2 <- lift (py_index results 2) ;;
  r3 <- lift (py_index results 3) ;;
  r4 <- lift (py_index results 4) ;;
  (if truthy r2 then
     lift (py_get r2 "real_tx_speed" JNull) ;;;
     lift (py_get r2 "real_rx_speed" JNull) ;;;
     ret tt
   else ret tt) ;;;
  ret (JObj [ ("router_status", or_empty r0);
              ("network_info", or_empty r1);
              ("data_usage", or_empty r2);
              ("device_info", or_empty r3);
              ("wlan_info", or_empty r4) ]).

(** The operations a caller can run on one client, and a client's life as a
    sequence of them; an exception ends the operation, not the client. *)
Inductive op : Type :=
| CallOne (namespace method : string) (params : option dict)
| CallBatch (calls : list call)
| Login
| Update
| Close.

Definition run_op (o : op) (st : State) : State :=
  match o with
  | CallOne namespace method params =>
      snd (_call_api namespace method params st)
  | CallBatch calls => snd (_call_api_batch calls st)
  | Login => snd (async_login st)
  | Update => snd (async_update st)
  | Close => snd (close st)
  end.

Definition run_ops (os : list op) (st : State) : State :=
  fold_left (fun s o => run_op o s) os st.

(** A client fresh from its constructor, facing a network that will answer
    with [replies]. *)
Definition fresh (host : string) (password : option string)
    (replies : list (Z * reply)) : State :=
  {| self := __init__ host password;
     net := {| script := replies; sent := [] |} |}.

(** ** Vocabulary of the specification *)

(** The reply the next POST will meet. *)
Definition next_reply (n : Net) : reply :=
  match script n with
  | [] => Fails
  | (_, r) :: _ => r
  end.

(** The payload a single call extracts from a reply: index 1 of the
    [result] array of the first item, when the body is an array whose first
    item is an object holding such an array of two or more elements. *)
Definition payload_of (r : reply) : value :=
  match r with
  | Body (JList (JObj d :: _)) => second_of (get_default "result" (JList []) d)
  | _ => JNull
  end.

(** The envelope of one call descriptor. *)
Definition envelope (token : value) (id : Z) (cl : call) : value :=
  let '(namespace, method, params) := cl in
  JObj [ ("jsonrpc", JStr "2.0");
         ("id", JInt id);
         ("method", JStr "call");
         ("params",
          JList [token; JStr namespace; JStr method;
                 JObj (match params with Some d => d | None => [] end)]) ].

(** One envelope per descriptor, in descriptor order, ids counting up. *)
Fixpoint envelopes (token : value) (id : Z) (calls : list call) : list value :=
  match calls with
  | [] => []
  | cl :: rest => envelope token id cl :: envelopes token (id + 1) rest
  end.

Definition url_of (st : State) : string :=
  base_url (self st) ++ "?t="
  ++ NilZero.string_of_int
       (Z.to_int (match script (net st) with (t, _) :: _ => t | [] => 0 end)).

(** The state after one POST carrying [calls]: the ids are used up, the
    HTTP session is open, the reply is consumed and the body is on record.
    The token is as it was. *)
Definition posted (calls : list call) (st : State) : State :=
  {| self :=
       set__request_id (_request_id (self st) + Z.of_nat (List.length calls))
         (set__session Open (self st));
     net :=
       {| script := tl (script (net st));
          sent := (sent (net st)
                   ++ [(url_of st,
                        JList (envelopes (session_id (self st))
                                 (_request_id (self st)) calls))])%list |} |}.

Definition with_token (v : value) (st : State) : State :=
  {| self := set_session_id v (self st); net := net st |}.

(** An item whose [error] member has code -32002. *)
Definition access_denied (item : value) : bool :=
  match item with
  | JObj d =>
      match lookup "error" d with
      | Some (JObj e) => eq_int (get_default "code" JNull e) (-32002)
      | _ => false
      end
  | _ => false
  end.

(** An item whose [error] member, if it has one, is an object. *)
Definition error_is_object (item : value) : bool :=
  match item with
  | JObj d =>
      match lookup "error" d with
      | Some (JObj _) => true
      | Some _ => false
      | None => true
      end
  | _ => true
  end.

(** The result a batch reports for one item. *)
Definition item_result (item : value) : value :=
  match item with
  | JObj d =>
      match lookup "error" d with
      | Some _ => JNull
      | None => second_of (get_default "result" (JList []) d)
      end
  | _ => JNull
  end.

(** Number of access-denied items in a reply (none unless it is an
    array). *)
Definition denied_in (r : reply) : Z :=
  match r with
  | Body (JList items) => Z.of_nat (List.length (filter access_denied items))
  | _ => 0
  end.

(** Every [error] member in the reply is an object. *)
Definition errors_are_objects (r : reply) : bool :=
  match r with
  | Body (JList items) => forallb error_is_object items
  | _ => true
  end.

(** Request ids carried by a posted body, in order. *)
Definition body_ids (body : value) : list Z :=
  match body with
  | JList reqs =>
      flat_map (fun r => match r with
                         | JObj d => match lookup "id" d with
                                     | Some (JInt n) => [n]
                                     | _ => []
                                     end
                         | _ => []
                         end) reqs
  | _ => []
  end.

(** Request ids of everything posted so far, oldest first. *)
Definition sent_ids (n : Net) : list Z :=
  flat_map (fun p => body_ids (snd p)) (sent n).

Fixpoint zseq (start : Z) (len : nat) : list Z :=
  match len with
  | O => []
  | S len' => start :: zseq (start + 1) len'
  end.

(** The digest as the handshake is documented:
    uppercase(hex(SHA256(uppercase(hex(SHA256(credential))) + salt))). *)
Definition handshake_digest (credential salt : string) : string :=
  upper (Sha256.hexdigest (upper (Sha256.hexdigest credential) ++ salt)).

(** The five descriptors of an update, for a given router-status method. *)
Definition update_calls (router_method : string) : list call :=
  [ ("zwrt_router.api", router_method, None);
    ("zte_nwinfo_api", "nwinfo_get_netinfo", None);
    ("zwrt_data", "get_wwandst",
       Some [("source_module", JStr "web"); ("cid", JInt 1); ("type", JInt 4)]);
    ("zwrt_router.api", "router_get_user_list_num", None);
    ("zwrt_wlan", "report", None) ].

(** ** The operations in closed form *)

(** What a batch reports for a reply: one result per item of an array that
    could be read to its end, else one [None] per descriptor. *)
Definition batch_report (calls : list call) (r : reply) : list value :=
  match r with
  | Body (JList items) =>
      if forallb error_is_object items then map item_result items
      else repeat JNull (List.length calls)
  | _ => repeat JNull (List.length calls)
  end.

(** The expiry heuristic fires. *)
Definition expired (r : reply) (c : ZTERouterAPI) : bool :=
  errors_are_objects r && (2 <=? denied_in r) && authenticated c.

(** The two calls of the login handshake. *)
Definition login_info_call : call := ("zwrt_web", "web_login_info", None).

Definition login_call (digest : string) : call :=
  ("zwrt_web", "web_login", Some [("password", JStr digest)]).

(** The salt a reply to [web_login_info] carries, when its payload is an
    object with a string under [zte_web_sault]. *)
Definition salt_of (r : reply) : option string :=
  match payload_of r with
  | JObj d =>
      match lookup "zte_web_sault" d with
      | Some (JStr salt) => Some salt
      | _ => None
      end
  | _ => None
  end.

(** A login payload the client takes as success: an object whose [result]
    compares equal to 0 or to "0". *)
Definition accepted (login_result : value) : bool :=
  match login_result with
  | JObj fields => code_is 0 "0" (get_default "result" JNull fields)
  | _ => false
  end.

(** The token after a login that met [login_result], from token [old]. *)
Definition adopted (old login_result : value) : value :=
  match login_result with
  | JObj fields =>
      if code_is 0 "0" (get_default "result" JNull fields)
      then get_default "ubus_rpc_session" old fields
      else old
  | _ => old
  end.

(** The login as a function of the state it starts in. *)
Definition login_spec (st : State) : bool * State :=
  match password (self st) with
  | None => (false, st)
  | Some pw =>
      if String.eqb pw "" then (false, st) else
      let st1 := posted [login_info_call] st in
      match salt_of (next_reply (net st)) with
      | None => (false, st1)
      | Some salt =>
          let st2 := posted [login_call (handshake_digest pw salt)] st1 in
          let login_result := payload_of (next_reply (net st1)) in
          if accepted login_result
          then (true,
                with_token (adopted (session_id (self st)) login_result) st2)
          else (false, st2)
      end
  end.

(** The snapshot an update builds from the results of its batch. *)
Definition snapshot (r0 r1 r2 r3 r4 : value) : value :=
  JObj [ ("router_status", or_empty r0);
         ("network_info", or_empty r1);
         ("data_usage", or_empty r2);
         ("device_info", or_empty r3);
         ("wlan_info", or_empty r4) ].

(** What the tail of an update makes of the batch results: it indexes
    positions 0 to 4 and reads two fields off a truthy position 2. *)
Definition assemble (results : list value) : outcome value :=
  match results with
  | r0 :: r1 :: r2 :: r3 :: r4 :: _ =>
      if truthy r2
      then match r2 with
           | JObj _ => Return (snapshot r0 r1 r2 r3 r4)
           | _ => Raise AttributeError
           end
      else Return (snapshot r0 r1 r2 r3 r4)
  | _ => Raise IndexError
  end.

(** The state in which an update selects its router-status method: after
    the login, if one is due. *)
Definition after_login_step (st : State) : State :=
  if has_password (self st)
     && eq_str (session_id (self st)) UNAUTHENTICATED_SESSION
  then snd (login_spec st)
  else st.

Definition router_method (c : ZTERouterAPI) : string :=
  if authenticated c then "router_get_status" else "router_get_status_no_auth".

(** The update as a function of the state it starts in. *)
Definition update_spec (st : State) : outcome value * State :=
  let st1 := after_login_step st in
  match session_id (self st1) with
  | JStr _ =>
      let calls := update_calls (router_method (self st1)) in
      let r := next_reply (net st1) in
      (assemble (batch_report calls r),
       if expired r (self st1)
       then with_token (JStr UNAUTHENTICATED_SESSION) (posted calls st1)
       else posted calls st1)
  | _ => (Raise TypeError, st1)
  end.

(** Lines 272 to 328 of the update, everything after the login step. *)
Definition update_tail : M value :=
  c <- get_self ;;
  let router_method :=
    if authenticated c then "router_get_status"
    else "router_get_status_no_auth" in
  lift (py_abbrev (session_id c)) ;;;
  results <- _call_api_batch (update_calls router_method) ;;
  r0 <- lift (py_index results 0) ;;
  r1 <- lift (py_index results 1) ;;
  r2 <- lift (py_index results 2) ;;
  r3 <- lift (py_index results 3) ;;
  r4 <- lift (py_index results 4) ;;
  (if truthy r2 then
     lift (py_get r2 "real_tx_speed" JNull) ;;;
     lift (py_get r2 "real_rx_speed" JNull) ;;;
     ret tt
   else ret tt) ;;;
  ret (JObj [ ("router_status", or_empty r0);
              ("network_info", or_empty r1);
              ("data_usage", or_empty r2);
              ("device_info", or_empty r3);
              ("wlan_info", or_empty r4) ]).

(** ** Reachable states *)

(** Every operation takes the state through POSTs, token assignments and
    changes of the HTTP session, and nothing else. *)
Inductive evolves (st : State) : State -> Prop :=
| evolves_refl : evolves st st
| evolves_post calls st' : evolves st st' -> evolves st (posted calls st')
| evolves_token v st' : evolves st st' -> evolves st (with_token v st')
| evolves_http h st' :
    evolves st st' ->
    evolves st {| self := set__session h (self st'); net := net st' |}.

(** ** More vocabulary of the claims *)

(** The [result] array of a response item, if it is an object that has
    one. *)
Definition result_array (item : value) : option (list value) :=
  match item with
  | JObj d =>
      match lookup "result" d with
      | Some (JList l) => Some l
      | _ => None
      end
  | _ => None
  end.

Definition is_array (data : value) : bool :=
  match data with
  | JList _ => true
  | _ => false
  end.

(** ** Sample routers and clients *)

(** A response item carrying [payload], and one refusing access. *)
Definition ok_item (payload : value) : value :=
  JObj [("result", JList [JInt 0; payload])].

Definition denied_item : value :=
  JObj [("error",
         JObj [("code", JInt (-32002)); ("message", JStr "Access denied")])].

(** A router answering one WLAN report. *)
Definition wlan_report_replies : list (Z * reply) :=
  [ (1700000000000,
     Body (JList [ok_item (JObj [("ssid", JStr "home")])])) ].

(** A client holding token [token], its request counter at 1, facing the
    replies [replies]. *)
Definition logged_in (token : string) (replies : list (Z * reply)) : State :=
  {| self := set_session_id (JStr token) (__init__ "192.168.0.1" (Some "pass"));
     net := {| script := replies; sent := [] |} |}.

Definition empty_snapshot : value :=
  JObj [ ("router_status", JObj []);
         ("network_info", JObj []);
         ("data_usage", JObj []);
         ("device_info", JObj []);
         ("wlan_info", JObj []) ].

Definition offline (n : Net) : Prop :=
  Forall (fun e => snd e = Fails) (script n).

(** A router that accepts the login and hands out a number for a session. *)
Definition numeric_session_replies : list (Z * reply) :=
  [ (1700000000000,
     Body (JList [ok_item (JObj [("zte_web_sault", JStr "ab12")])]));
    (1700000000050,
     Body (JList [ok_item (JObj [("result", JInt 0);
                                 ("ubus_rpc_session", JInt 5)])]));
    (1700000000100,
     Body (JList [ok_item (JObj []); ok_item (JObj []); ok_item (JObj []);
                  ok_item (JObj []); ok_item (JObj [])])) ].


Definition result_code (fields : dict) : value :=
  get_default "result" JNull fields.

(** A router that hands out the session ["5f3a"] to the right digest. *)
Definition accepting_replies : list (Z * reply) :=
  [ (1700000000000,
     Body (JList [ok_item (JObj [("zte_web_sault", JStr "ab12")])]));
    (1700000000050,
     Body (JList [ok_item (JObj [("result", JStr "0");
                                 ("ubus_rpc_session", JStr "5f3a")])])) ].

(** Every id from 1 up to the counter has been posted, in order, and
    nothing else. *)
Definition ids_in_step (st : State) : Prop :=
  exists k : nat,
    sent_ids (net st) = zseq 1 k
    /\ _request_id (self st) = 1 + Z.of_nat k.



(** ** The single getters of the client ([api.py], lines 243 to 259) *)

Definition async_get_router_status : M value :=
  c <- get_self ;;
  let method :=
    if authenticated c then "router_get_status"
    else "router_get_status_no_auth" in
  _call_api "zwrt_router.api" method None.

Definition async_get_network_info : M value :=
  _call_api "zte_nwinfo_api" "nwinfo_get_netinfo" None.

Definition async_get_data_usage : M value :=
  _call_api "zwrt_data" "get_wwandst"
    (Some [("source_module", JStr "web"); ("cid", JInt 1); ("type", JInt 4)]).

(** ** The config flow ([config_flow.py]) *)

Module ConfigFlow.

(** The validated form: [CONF_HOST] is required, [CONF_PASSWORD]
    optional, both strings. *)
Record UserInput : Type := {
  CONF_HOST : string;
  CONF_PASSWORD : option string
}.

(** What a step hands back to the framework: an entry
    ([async_create_entry]) or the form again ([async_show_form]) with its
    errors and the host placeholder. *)
Inductive FlowResult : Type :=
| create_entry (title : string) (data : UserInput)
| show_form (step_id : string) (errors : list (string * string))
    (placeholder_host : string).

(** [any(data.values())] *)
Definition any_values (data : value) : outcome bool :=
  match data with
  | JObj d => Return (existsb truthy (map snd d))
  | _ => Raise AttributeError
  end.

Definition cannot_connect : list (string * string) :=
  [("base", "cannot_connect")].

(** Lines 37 to 61 of [async_step_user], run on the client the step has
    just made: the [try] with its [except Exception] and its [finally].
    [unique_id] stands for the two framework calls
    [async_set_unique_id(host)] and [_abort_if_unique_id_configured()], which
    touch neither the client nor the network and may raise.  The result is
    the entry returned from inside the [try], or the errors the form will
    show. *)
Definition test_connection (unique_id : string -> outcome unit)
    (input : UserInput) : M (FlowResult + list (string * string)) :=
  r <- try_except
         (data <- async_update ;;
          some <- (if truthy data then lift (any_values data)
                   else ret false) ;;
          if negb some then ret (inr cannot_connect)
          else
            close ;;;
            lift (unique_id (CONF_HOST input)) ;;;
            ret (inl (create_entry
                        ("ZTE Router (" ++ CONF_HOST input ++ ")") input)))
         (fun _ => ret (inr cannot_connect)) ;;
  close ;;;
  ret r.

(** [async_step_user]: with no input the empty form; with input, a client
    made for it, the connection test, and the entry or the form with the
    errors.  [DEFAULT_HOST] comes from [const.py]. *)
Definition async_step_user (DEFAULT_HOST : string)
    (unique_id : string -> outcome unit) (user_input : option UserInput)
    (n : Net) : outcome FlowResult * option State :=
  match user_input with
  | None => (Return (show_form "user" [] DEFAULT_HOST), None)
  | Some input =>
      let api := __init__ (CONF_HOST input) (CONF_PASSWORD input) in
      match test_connection unique_id input {| self := api; net := n |} with
      | (Return (inl entry), st) => (Return entry, Some st)
      | (Return (inr errors), st) =>
          (Return (show_form "user" errors DEFAULT_HOST), Some st)
      | (Raise e, st) => (Raise e, Some st)
      end
  end.

End ConfigFlow.

(** ** The sensors ([sensor.py]) *)

Module Sensor.

Record ZTESensorEntityDescription : Type := {
  key : string;
  name : string;
  value_fn : option (value -> outcome value)
}.

(** [data.get(section, {}).get(field)] *)
Definition field_of (section field : string) (data : value) : outcome value :=
  match py_get data section (JObj []) with
  | Return s => py_get s field JNull
  | Raise e => Raise e
  end.

(** ["On" if data.get("wlan_info", {}).get("wifi_onoff") == "1" else "Off"] *)
Definition wifi_status (data : value) : outcome value :=
  match field_of "wlan_info" "wifi_onoff" data with
  | Return v => Return (JStr (if eq_str v "1" then "On" else "Off"))
  | Raise e => Raise e
  end.

Definition reads (key name section field : string)
    : ZTESensorEntityDescription :=
  {| key := key; name := name; value_fn := Some (field_of section field) |}.

Definition SENSORS : list ZTESensorEntityDescription :=
  [ reads "network_type" "Network Type" "network_info" "network_type";
    reads "signal_strength" "Signal Strength" "network_info" "signalbar";
    reads "lte_rsrp" "LTE RSRP" "network_info" "lte_rsrp";
    reads "lte_rsrq" "LTE RSRQ" "network_info" "lte_rsrq";
    reads "lte_rssi" "LTE RSSI" "network_info" "lte_rssi";
    reads "lte_snr" "LTE SNR" "network_info" "lte_snr";
    reads "nr5g_rsrp" "5G RSRP" "network_info" "nr5g_rsrp";
    reads "nr5g_rssi" "5G RSSI" "network_info" "nr5g_rssi";
    reads "nr5g_snr" "5G SNR" "network_info" "nr5g_snr";
    reads "network_provider" "Network Provider" "network_info"
      "network_provider_fullname";
    reads "wan_active_band" "Active Band" "network_info" "wan_active_band";
    reads "nr5g_action_band" "5G Band" "network_info" "nr5g_action_band";
    reads "cell_id" "Cell ID" "network_info" "cell_id";
    reads "wireless_devices" "Wireless Devices" "device_info" "wireless_num";
    reads "lan_devices" "LAN Devices" "device_info" "lan_num";
    reads "wan_status" "WAN Status" "router_status" "current_wan_status";
    reads "tx_speed" "Upload Speed" "data_usage" "real_tx_speed";
    reads "rx_speed" "Download Speed" "data_usage" "real_rx_speed";
    reads "tx_bytes" "Uploaded Data" "data_usage" "real_tx_bytes";
    reads "rx_bytes" "Downloaded Data" "data_usage" "real_rx_bytes";
    {| key := "wifi_status"; name := "WiFi Status";
       value_fn := Some wifi_status |};
    reads "ssid" "SSID" "wlan_info" "main2g_ssid" ].

(** The property [native_value] on the coordinator's data.  [float] is
    Python's [float] on a str, [None] standing for its [ValueError]. *)
Definition native_value (float : string -> option spec_float)
    (description : ZTESensorEntityDescription) (data : value)
    : outcome value :=
  match value_fn description with
  | Some fn =>
      match fn data with
      | Return value =>
          match value with
          | JNull => Return JNull
          | JStr s =>
              if String.eqb s "" then Return JNull
              else match float s with
                   | Some x => Return (JFloat x)
                   | None => Return (JStr s)
                   end
          | _ => Return value
          end
      | Raise e => Raise e
      end
  | None => Return JNull
  end.

(** The property [available]; [super_available] is what the coordinator
    entity says. *)
Definition available (float : string -> option spec_float)
    (super_available : bool) (description : ZTESensorEntityDescription)
    (data : value) : outcome bool :=
  if super_available then
    match native_value float description data with
    | Return JNull => Return false
    | Return _ => Return true
    | Raise e => Raise e
    end
  else Return false.

(** [_attr_unique_id] as [ZTERouterSensor.__init__] sets it:
    [f"{entry.entry_id}_{description.key}"]. *)
Definition unique_id (entry_id : string)
    (description : ZTESensorEntityDescription) : string :=
  entry_id ++ "_" ++ key description.

(** The unique ids of the entities [async_setup_entry] makes, one per
    description of the table, in its order. *)
Definition entity_ids (entry_id : string) : list string :=
  map (unique_id entry_id) SENSORS.

End Sensor.

(** ** What reaches the client of one POST *)

(** The router's answer as aiohttp hands it over: no answer at all
    (connection refused, timeout), or an HTTP status with a body that is JSON
    or is not.  Redirects that aiohttp follows are not answers; the answer is
    what the last hop said. *)
Inductive answer : Type :=
| NoAnswer
| Answer (status : Z) (body : option value).

(** [response.raise_for_status()] raises from status 400 up and lets every
    lower status through; [response.json(content_type=None)] raises on a body
    that is no JSON. *)
Definition received (a : answer) : reply :=
  match a with
  | NoAnswer => Fails
  | Answer status body =>
      if 400 <=? status then Fails
      else match body with
           | Some data => Body data
           | None => Fails
           end
  end.


(** The section [s] shows the result [r] as it was received: [r] itself
    when it is truthy, the empty mapping when it is not. *)
Definition shown (r s : value) : Prop :=
  (truthy r = true /\ s = r) \/ (truthy r = false /\ s = JObj []).


(** ** Vocabulary of the further properties *)

(** [st'] is [st] after [k] more POSTs: [k] bodies added to the record, [k]
    replies consumed. *)
Definition grows (k : nat) (st st' : State) : Prop :=
  exists extra,
    List.length extra = k
    /\ sent (net st') = (sent (net st) ++ extra)%list
    /\ script (net st') = skipn k (script (net st)).

Definition upper_hex (a : ascii) : bool :=
  existsb (Ascii.eqb a) (list_ascii_of_string "0123456789ABCDEF").

(** The verdict of the connection test on what the update gave and what
    the unique-id step does. *)
Definition connection_verdict (update : outcome value)
    (claimed : outcome unit) (input : ConfigFlow.UserInput)
    : ConfigFlow.FlowResult + list (string * string) :=
  match update, claimed with
  | Return (JObj d), Return _ =>
      if existsb truthy (map snd d)
      then inl (ConfigFlow.create_entry
                  ("ZTE Router (" ++ ConfigFlow.CONF_HOST input ++ ")") input)
      else inr ConfigFlow.cannot_connect
  | _, _ => inr ConfigFlow.cannot_connect
  end.

(** The five sections, in the order of the batch. *)
Definition sections : list string :=
  ["router_status"; "network_info"; "data_usage"; "device_info"; "wlan_info"].

(** Every section that is there is an object. *)
Definition sections_are_objects (fields : dict) : Prop :=
  forall section v, lookup section fields = Some v -> exists d, v = JObj d.

Arguments Sha256.hexdigest : simpl never.
Arguments upper : simpl never.
Arguments url_of : simpl never.
Arguments timestamp_url : simpl never.

(** ** The hash primitive on known digests *)

Example sha256_constants :
  hd 0 Sha256.K = 0x428a2f98 /\ last Sha256.K 0 = 0xc67178f2
  /\ hd 0 Sha256.H0 = 0x6a09e667 /\ last Sha256.H0 0 = 0x5be0cd19.
Proof. repeat split. Qed.

Example sha256_abc :
  Sha256.hexdigest "abc"
  = "ba7816bf8f01cfea414140de5dae2223b00361a396177a9cb410ff61f20015ad".
Proof. vm_compute. reflexivity. Qed.

Example sha256_empty :
  Sha256.hexdigest ""
  = "e3b0c44298fc1c149afbf4c8996fb92427ae41e4649b934ca495991b7852b855".
Proof. vm_compute. reflexivity. Qed.

Example sha256_two_blocks :
  Sha256.hexdigest
    "aaaaaaaaaaaaaaaaaaaaaaaaaaaaaaaaaaaaaaaaaaaaaaaaaaaaaaaaaaaaaaaaaaaaaa"
  = "6bd5e5034855a11241f0dee8fc72850ffd9955b28347a86428b5fa19119f6ad0".
Proof. vm_compute. reflexivity. Qed.

Example sha256_pass :
  upper (Sha256.hexdigest "pass")
  = "D74FF0EE8DA3B9806B18C877DBF29BBDE50B5BD8E4DAD7A3A725000FEB82E8F1".
Proof. vm_compute. reflexivity. Qed.

(** ** Run equations *)

Lemma _get_session_eq (st : State) :
  _get_session st
  = (Return tt, {| self := set__session Open (self st); net := net st |}).
Proof.
  destruct st as [c n]. unfold _get_session, bind, get_self, set_self, ret.
  simpl. destruct c as [h p b s [] i]; reflexivity.
Qed.

Lemma _create_rpc_request_eq (namespace method : string) (params : option dict)
    (st : State) :
  _create_rpc_request namespace method params st
  = (Return (envelope (session_id (self st)) (_request_id (self st))
               (namespace, method, params)),
     {| self := set__request_id (_request_id (self st) + 1) (self st);
        net := net st |}).
Proof. reflexivity. Qed.

Lemma create_requests_eq (calls : list call) : forall st : State,
  create_requests calls st
  = (Return (envelopes (session_id (self st)) (_request_id (self st)) calls),
     {| self := set__request_id
                  (_request_id (self st) + Z.of_nat (List.length calls))
                  (self st);
        net := net st |}).
Proof.
  induction calls as [|[[ns m] p] rest IH]; intros [c n].
  - destruct c; simpl. unfold ret, set__request_id. simpl.
    now rewrite Z.add_0_r.
  - cbn [create_requests]. unfold bind at 1.
    rewrite _create_rpc_request_eq. unfold bind at 1. rewrite IH.
    unfold ret. cbn [envelopes self net session_id _request_id set__request_id
                      host password base_url _session List.length].
    do 2 f_equal. unfold set__request_id. cbn. f_equal. lia.
Qed.

Lemma timestamp_url_eq (st : State) :
  timestamp_url st = (Return (url_of st), st).
Proof. reflexivity. Qed.

Lemma post_eq (url : string) (body : value) (st : State) :
  post url body st
  = (match next_reply (net st) with
     | Fails => Raise ClientError
     | Body data => Return data
     end,
     {| self := self st;
        net := {| script := tl (script (net st));
                  sent := (sent (net st) ++ [(url, body)])%list |} |}).
Proof.
  unfold post, next_reply.
  destruct (script (net st)) as [|[t r] rest]; [reflexivity|].
  destruct r; reflexivity.
Qed.

Lemma _call_api_eq (namespace method : string) (params : option dict)
    (st : State) :
  _call_api namespace method params st
  = (Return (payload_of (next_reply (net st))),
     posted [(namespace, method, params)] st).
Proof.
  unfold _call_api. unfold bind at 1. rewrite _get_session_eq.
  unfold bind at 1. rewrite _create_rpc_request_eq.
  unfold bind at 1. rewrite timestamp_url_eq.
  unfold try_except, bind. rewrite post_eq.
  destruct st as [c n]. cbn [self net].
  unfold posted, url_of. cbn [self net List.length envelopes].
  destruct c as [h p b s hs i].
  cbn [session_id _request_id set__request_id set__session host password
       base_url _session Z.of_nat Pos.of_succ_nat].
  destruct (next_reply n) as [|data]; [reflexivity|].
  destruct data as [| | | | |items|]; try reflexivity.
  destruct items as [|first rest]; [reflexivity|].
  destruct first; reflexivity.
Qed.

Lemma batch_items_eq (items : list value) :
  forall (results : list value) (count : Z),
  batch_items items results count
  = if forallb error_is_object items
    then Return ((results ++ map item_result items)%list,
                 count + Z.of_nat (List.length (filter access_denied items)))
    else Raise AttributeError.
Proof.
  induction items as [|item rest IH]; intros results count.
  - cbn. now rewrite app_nil_r, Z.add_0_r.
  - cbn [batch_items forallb filter map].
    destruct item as [| | | | | |d];
      try (rewrite IH; cbn [error_is_object access_denied item_result andb];
           rewrite <- app_assoc; reflexivity).
    cbn [error_is_object access_denied item_result].
    destruct (lookup "error" d) as [error|].
    + destruct error as [| | | | | |e]; try reflexivity.
      cbn [py_get andb]. rewrite IH, <- app_assoc.
      destruct (eq_int (get_default "code" JNull e) (-32002));
        destruct (forallb error_is_object rest); try reflexivity;
        cbn [List.length app]; do 2 f_equal; lia.
    + rewrite IH, <- app_assoc. reflexivity.
Qed.

Lemma _call_api_batch_eq (calls : list call) (st : State) :
  _call_api_batch calls st
  = (Return (batch_report calls (next_reply (net st))),
     if expired (next_reply (net st)) (self st)
     then with_token (JStr UNAUTHENTICATED_SESSION) (posted calls st)
     else posted calls st).
Proof.
  unfold _call_api_batch. unfold bind at 1. rewrite _get_session_eq.
  unfold bind at 1. rewrite create_requests_eq.
  unfold bind at 1. rewrite timestamp_url_eq.
  unfold try_except, bind. rewrite post_eq.
  destruct st as [c n]. cbn [self net].
  unfold posted, url_of, expired, batch_report, with_token.
  cbn [self net].
  destruct c as [h p b s hs i].
  cbn [session_id _request_id set__request_id set__session host password
       base_url _session].
  destruct (next_reply n) as [|data]; [reflexivity|].
  destruct data as [| | | | |items|]; try reflexivity.
  unfold lift, errors_are_objects, denied_in. rewrite batch_items_eq.
  destruct (forallb error_is_object items); [|reflexivity].
  cbn [get_self self fst snd andb Z.add app].
  unfold authenticated.
  cbn [session_id set__request_id set__session set_session_id].
  destruct (2 <=? Z.of_nat (List.length (filter access_denied items)));
    [|reflexivity].
  cbn [andb].
  destruct (negb (eq_str s UNAUTHENTICATED_SESSION)); reflexivity.
Qed.

Lemma upper_char_idempotent (a : ascii) :
  upper_char (upper_char a) = upper_char a.
Proof. destruct a as [[] [] [] [] [] [] [] []]; reflexivity. Qed.

Lemma upper_idempotent (s : string) : upper (upper s) = upper s.
Proof.
  induction s as [|a s IH]; [reflexivity|].
  change (String (upper_char (upper_char a)) (upper (upper s))
          = String (upper_char a) (upper s)).
  now rewrite upper_char_idempotent, IH.
Qed.

Lemma async_login_eq (st : State) :
  async_login st = (Return (fst (login_spec st)), snd (login_spec st)).
Proof.
  unfold async_login, login_spec. unfold bind at 1, get_self.
  cbn [self]. destruct (password (self st)) as [[|a pw]|]; try reflexivity.
  cbn [String.eqb]. unfold try_except. unfold bind at 1.
  rewrite _call_api_eq. unfold salt_of, login_info_call.
  set (st1 := posted _ st).
  destruct (payload_of (next_reply (net st))) as [|[]|n|[]|s|l|d];
    try reflexivity.
  - unfold bind, lift, ret; cbn. destruct (n =? 0); reflexivity.
  - unfold bind, lift, ret; cbn [truthy py_contains negb].
    destruct (negb (s =? "")%string); [|reflexivity].
    destruct (String.index 0 "zte_web_sault" s); reflexivity.
  - unfold bind, lift, ret; cbn [truthy py_contains negb].
    destruct l; [reflexivity|].
    destruct (existsb _ _); reflexivity.
  - destruct d as [|kv d']; [reflexivity|].
    assert (Ht : truthy (JObj (kv :: d')) = true) by reflexivity.
    remember (kv :: d') as d eqn:Hd. clear Hd kv d'.
    unfold bind at 1. unfold bind at 1. rewrite Ht.
    cbn [py_contains lift].
    unfold has_key.
    destruct (lookup "zte_web_sault" d) as [salt|] eqn:Hsalt;
      [|reflexivity].
    cbn [negb]. unfold bind at 1. cbn [lift py_getitem]. rewrite Hsalt.
    unfold bind at 1. unfold login_digest.
    destruct salt as [| | | |salt| |]; try reflexivity.
    cbn [lift py_concat]. unfold bind at 1. rewrite _call_api_eq.
    rewrite upper_idempotent. fold (handshake_digest (String a pw) salt).
    fold (login_call (handshake_digest (String a pw) salt)).
    set (st2 := posted _ st1).
    unfold accepted, adopted.
    destruct (payload_of (next_reply (net st1))) as [|[]|n|[]|s|l|fields];
      try reflexivity.
    + unfold bind, lift, ret; cbn. destruct (n =? 0); reflexivity.
    + unfold bind, lift, ret; cbn. destruct (s =? "")%string; reflexivity.
    + unfold bind, lift, ret; cbn. destruct l; reflexivity.
    + cbn [truthy]. destruct fields as [|f fields']; [reflexivity|].
      set (fields := f :: fields').
      unfold bind at 1. cbn [lift py_get].
      destruct (code_is 0 "0" (get_default "result" JNull fields)).
      * unfold bind, get_self, lift, set_self, ret. cbn [py_get self net].
        subst st2 st1. reflexivity.
      * destruct (code_is 1 "1" _); [reflexivity|].
        destruct (code_is 2 "2" _); reflexivity.
Qed.

Lemma assemble_eq (results : list value) (st : State) :
  (r0 <- lift (py_index results 0) ;;
   r1 <- lift (py_index results 1) ;;
   r2 <- lift (py_index results 2) ;;
   r3 <- lift (py_index results 3) ;;
   r4 <- lift (py_index results 4) ;;
   (if truthy r2 then
      lift (py_get r2 "real_tx_speed" JNull) ;;;
      lift (py_get r2 "real_rx_speed" JNull) ;;;
      ret tt
    else ret tt) ;;;
   ret (JObj [ ("router_status", or_empty r0);
               ("network_info", or_empty r1);
               ("data_usage", or_empty r2);
               ("device_info", or_empty r3);
               ("wlan_info", or_empty r4) ])) st
  = (assemble results, st).
Proof.
  unfold assemble, bind, lift, ret, py_index.
  destruct results as [|r0 [|r1 [|r2 [|r3 [|r4 rest]]]]]; try reflexivity.
  cbn [nth_error].
  destruct (truthy r2); [|reflexivity].
  destruct r2; reflexivity.
Qed.

Lemma async_update_unfold :
  async_update
  = (c <- get_self ;;
     (if has_password c && eq_str (session_id c) UNAUTHENTICATED_SESSION then
        login_success <- async_login ;;
        if login_success then
          c <- get_self ;;
          lift (py_abbrev (session_id c)) ;;; ret tt
        else ret tt
      else ret tt) ;;;
     update_tail).
Proof. reflexivity. Qed.

Lemma update_tail_eq (st1 : State) :
  update_tail st1
  = match session_id (self st1) with
    | JStr _ =>
        (assemble (batch_report (update_calls (router_method (self st1)))
                     (next_reply (net st1))),
         if expired (next_reply (net st1)) (self st1)
         then with_token (JStr UNAUTHENTICATED_SESSION)
                (posted (update_calls (router_method (self st1))) st1)
         else posted (update_calls (router_method (self st1))) st1)
    | _ => (Raise TypeError, st1)
    end.
Proof.
  unfold update_tail. unfold bind at 1, get_self. unfold bind at 1.
  cbn [self]. destruct (session_id (self st1)); try reflexivity.
  cbn [lift py_abbrev]. unfold bind at 1.
  rewrite _call_api_batch_eq. apply assemble_eq.
Qed.

Lemma async_update_eq (st : State) : async_update st = update_spec st.
Proof.
  rewrite async_update_unfold. unfold update_spec, after_login_step.
  unfold bind at 1, get_self. unfold bind at 1. cbn [self].
  destruct (has_password (self st)
            && eq_str (session_id (self st)) UNAUTHENTICATED_SESSION).
  - unfold bind at 1. rewrite async_login_eq.
    destruct (fst (login_spec st)).
    + unfold bind, get_self, lift, ret. cbn [self].
      destruct (session_id (self (snd (login_spec st)))) eqn:Hs;
        try reflexivity.
      cbn [py_abbrev]. rewrite update_tail_eq, Hs. reflexivity.
    + unfold ret. apply update_tail_eq.
  - unfold ret. apply update_tail_eq.
Qed.

Lemma close_eq (st : State) :
  close st
  = (Return tt,
     {| self := set__session (match _session (self st) with
                              | Open => Closed
                              | h => h
                              end) (self st);
        net := net st |}).
Proof.
  destruct st as [c n]. unfold close, bind, get_self, set_self, ret.
  cbn [self net]. destruct c as [h p b s [] i]; reflexivity.
Qed.

(** ** Every operation evolves the state *)

Lemma evolves_trans (a b c : State) :
  evolves a b -> evolves b c -> evolves a c.
Proof.
  intros Hab Hbc. induction Hbc.
  - exact Hab.
  - now apply evolves_post.
  - now apply evolves_token.
  - now apply evolves_http.
Qed.

Lemma login_spec_evolves (st : State) : evolves st (snd (login_spec st)).
Proof.
  unfold login_spec.
  destruct (password (self st)) as [pw|]; [|apply evolves_refl].
  destruct (pw =? "")%string; [apply evolves_refl|].
  destruct (salt_of (next_reply (net st))) as [salt|].
  - destruct (accepted _); cbn [snd];
      repeat first [apply evolves_token | apply evolves_post];
      apply evolves_refl.
  - apply evolves_post, evolves_refl.
Qed.

Lemma update_spec_evolves (st : State) : evolves st (snd (update_spec st)).
Proof.
  assert (H1 : evolves st (after_login_step st)).
  { unfold after_login_step. destruct (_ && _).
    - apply login_spec_evolves.
    - apply evolves_refl. }
  unfold update_spec.
  destruct (session_id (self (after_login_step st))); try exact H1.
  cbn [snd]. destruct (expired _ _).
  - now apply evolves_token, evolves_post.
  - now apply evolves_post.
Qed.

Lemma run_op_evolves (o : op) (st : State) : evolves st (run_op o st).
Proof.
  destruct o as [ns m p|calls| | |]; cbn [run_op].
  - rewrite _call_api_eq. apply evolves_post, evolves_refl.
  - rewrite _call_api_batch_eq. cbn [snd]. destruct (expired _ _).
    + apply evolves_token, evolves_post, evolves_refl.
    + apply evolves_post, evolves_refl.
  - rewrite async_login_eq. apply login_spec_evolves.
  - rewrite async_update_eq. apply update_spec_evolves.
  - rewrite close_eq. apply evolves_http, evolves_refl.
Qed.

Lemma run_ops_evolves (os : list op) : forall st, evolves st (run_ops os st).
Proof.
  induction os as [|o os IH]; intros st.
  - apply evolves_refl.
  - cbn [run_ops fold_left]. eapply evolves_trans.
    + apply (run_op_evolves o).
    + apply IH.
Qed.


(** ** Single call *)

(** C9, as stated, fails on "non-2xx status": the client only treats a
    status of 400 or above as a failure.  An answer with status 300 and a
    well-formed array for a body has its payload returned. *)
Lemma call_one_returns_payload_of_a_3xx :
  received (Answer 300 (Some (JList [ok_item (JStr "x")])))
  = Body (JList [ok_item (JStr "x")])
  /\ fst (_call_api "zwrt_wlan" "report" None
            (fresh "192.168.0.1" None
               [(1700000000000,
                 received (Answer 300 (Some (JList [ok_item (JStr "x")]))))]))
     = Return (JStr "x").
Proof. split; reflexivity. Qed.

(** C9, amended.  A single call never raises.  It returns [None] when the
    transport fails (no answer, a status of 400 or above, a body that is no
    JSON), when the body is not an array, when the array is empty and when
    its first item has no [result] array of two or more elements; when the
    first item has such an array, it returns the element at index 1, and
    that under every status below 400, 2xx or not. *)
Theorem call_one_never_raises :
  forall (namespace method : string) (params : option dict) (st : State),
    let r := next_reply (net st) in
    let out := fst (_call_api namespace method params st) in
    (exists v, out = Return v)
    /\ (r = Fails -> out = Return JNull)
    /\ (r = received NoAnswer -> out = Return JNull)
    /\ (forall status body,
          400 <= status -> r = received (Answer status body) ->
          out = Return JNull)
    /\ (forall status, r = received (Answer status None) ->
        out = Return JNull)
    /\ (forall data, r = Body data -> is_array data = false ->
        out = Return JNull)
    /\ (r = Body (JList []) -> out = Return JNull)
    /\ (forall item rest,
          r = Body (JList (item :: rest)) ->
          (forall l, result_array item = Some l -> (List.length l < 2)%nat) ->
          out = Return JNull)
    /\ (forall item rest l,
          r = Body (JList (item :: rest)) ->
          result_array item = Some l -> (2 <= List.length l)%nat ->
          out = Return (nth 1 l JNull))
    /\ (forall status item rest l,
          status < 400 ->
          r = received (Answer status (Some (JList (item :: rest)))) ->
          result_array item = Some l -> (2 <= List.length l)%nat ->
          out = Return (nth 1 l JNull)).
Proof.
  intros namespace method params st r out. subst out.
  rewrite _call_api_eq. cbn [fst]. fold r.
  assert (Hshort : forall item rest,
            r = Body (JList (item :: rest)) ->
            (forall l, result_array item = Some l -> (List.length l < 2)%nat) ->
            Return (payload_of r) = Return JNull).
  { intros item rest -> Hshort. cbn [payload_of].
    destruct item as [| | | | | |d]; try reflexivity.
    unfold result_array in Hshort. unfold get_default.
    destruct (lookup "result" d) as [[| | | | |l|]|]; try reflexivity.
    specialize (Hshort l eq_refl).
    destruct l as [|x [|y l']]; try reflexivity. cbn in Hshort. lia. }
  assert (Hpay : forall item rest l,
            r = Body (JList (item :: rest)) ->
            result_array item = Some l -> (2 <= List.length l)%nat ->
            Return (payload_of r) = Return (nth 1 l JNull)).
  { intros item rest l -> Harr Hlen. cbn [payload_of].
    destruct item as [| | | | | |d]; try discriminate.
    unfold result_array in Harr. unfold get_default.
    destruct (lookup "result" d) as [[| | | | |l0|]|]; try discriminate.
    injection Harr as ->.
    destruct l as [|x [|y l']]; cbn in Hlen; try lia. reflexivity. }
  split; [eexists; reflexivity|].
  split; [intros ->; reflexivity|].
  split; [intros ->; reflexivity|].
  split.
  { intros status body Hs ->. cbn [received]. apply Z.leb_le in Hs.
    rewrite Hs. reflexivity. }
  split.
  { intros status ->. cbn [received]. destruct (400 <=? status); reflexivity. }
  split; [intros data -> Hd; destruct data; try reflexivity; discriminate|].
  split; [intros ->; reflexivity|].
  split; [exact Hshort|].
  split; [exact Hpay|].
  intros status item rest l Hs Hr. apply (Hpay item rest l).
  rewrite Hr. cbn [received]. apply Z.leb_gt in Hs. now rewrite Hs.
Qed.

Lemma call_one_never_raises_witness :
  fst (_call_api "zwrt_wlan" "report" None
         (fresh "192.168.0.1" None wlan_report_replies))
  = Return (JObj [("ssid", JStr "home")])
  /\ fst (_call_api "zwrt_wlan" "report" None
            (fresh "192.168.0.1" None
               [(1700000000000,
                 received (Answer 503 (Some (JList [ok_item (JStr "x")]))))]))
     = Return JNull.
Proof.
  destruct (call_one_never_raises "zwrt_wlan" "report" None
              (fresh "192.168.0.1" None wlan_report_replies))
    as [_ [_ [_ [_ [_ [_ [_ [_ [Hpay _]]]]]]]]].
  destruct (call_one_never_raises "zwrt_wlan" "report" None
              (fresh "192.168.0.1" None
                 [(1700000000000,
                   received (Answer 503
                               (Some (JList [ok_item (JStr "x")]))))]))
    as [_ [_ [_ [Hbad _]]]].
  split.
  - apply (Hpay (ok_item (JObj [("ssid", JStr "home")])) []
             [JInt 0; JObj [("ssid", JStr "home")]]).
    + reflexivity.
    + reflexivity.
    + simpl. lia.
  - apply (Hbad 503 (Some (JList [ok_item (JStr "x")]))).
    + lia.
    + reflexivity.
Defined.

(** ** Envelopes *)

Lemma envelopes_length (token : value) (calls : list call) :
  forall id, List.length (envelopes token id calls) = List.length calls.
Proof.
  induction calls as [|cl rest IH]; intros id; cbn [envelopes List.length];
    [reflexivity|]. now rewrite IH.
Qed.

Lemma envelopes_nth (token : value) (calls : list call) :
  forall (id : Z) (i : nat) (cl : call),
    nth_error calls i = Some cl ->
    nth_error (envelopes token id calls) i
    = Some (envelope token (id + Z.of_nat i) cl).
Proof.
  induction calls as [|c0 rest IH]; intros id i cl Hi.
  - destruct i; discriminate.
  - destruct i as [|i]; cbn [nth_error envelopes] in *.
    + injection Hi as ->. now rewrite Z.add_0_r.
    + rewrite (IH (id + 1) i cl Hi). do 2 f_equal. lia.
Qed.

Lemma sent_after_batch (calls : list call) (st : State) :
  sent (net (snd (_call_api_batch calls st)))
  = (sent (net st)
     ++ [(url_of st,
          JList (envelopes (session_id (self st)) (_request_id (self st))
                   calls))])%list.
Proof.
  rewrite _call_api_batch_eq. cbn [snd]. destruct (expired _ _); reflexivity.
Qed.

(** C6, as the specification words it, fails: the envelope the client
    builds has no member called [version]; the protocol version is carried
    by the member [jsonrpc]. *)
Lemma envelope_has_no_version_member :
  exists fields,
    fst (_create_rpc_request "zwrt_wlan" "report" None
           (fresh "192.168.0.1" None []))
    = Return (JObj fields)
    /\ lookup "version" fields = None
    /\ lookup "jsonrpc" fields = Some (JStr "2.0").
Proof. eexists. repeat split. Qed.

(** C6, amended.  For every call descriptor the envelope is an object with
    exactly the members [jsonrpc] = "2.0", [id] = the next request id,
    [method] = "call" and [params] = the four-element array of the current
    session token, the namespace, the method and the parameters (the empty
    mapping when there are none); and the body a batch posts is the array of
    these envelopes, one per descriptor, in descriptor order, the ids
    counting up from the next request id. *)
Theorem envelope_shape :
  forall (namespace method : string) (params : option dict) (st : State),
    (exists fields,
        fst (_create_rpc_request namespace method params st)
        = Return (JObj fields)
        /\ map fst fields = ["jsonrpc"; "id"; "method"; "params"]
        /\ lookup "jsonrpc" fields = Some (JStr "2.0")
        /\ lookup "id" fields = Some (JInt (_request_id (self st)))
        /\ lookup "method" fields = Some (JStr "call")
        /\ lookup "params" fields
           = Some (JList [session_id (self st); JStr namespace; JStr method;
                          JObj (match params with
                                | Some d => d
                                | None => []
                                end)])
        /\ JObj fields
           = envelope (session_id (self st)) (_request_id (self st))
               (namespace, method, params))
    /\ forall calls : list call,
        exists reqs,
          sent (net (snd (_call_api_batch calls st)))
          = (sent (net st) ++ [(url_of st, JList reqs)])%list
          /\ List.length reqs = List.length calls
          /\ forall (i : nat) (cl : call),
               nth_error calls i = Some cl ->
               nth_error reqs i
               = Some (envelope (session_id (self st))
                         (_request_id (self st) + Z.of_nat i) cl).
Proof.
  intros namespace method params st. split.
  - eexists. rewrite _create_rpc_request_eq. cbn [fst envelope].
    repeat split.
  - intros calls. eexists. split; [apply sent_after_batch|].
    split; [apply envelopes_length|]. intros i cl. apply envelopes_nth.
Qed.

(** ** Batch call *)

(** C1, as stated, fails: two access-denied items followed by an item whose
    [error] member is a string.  Reading that member's code raises inside
    the [try], the handler reports [None] for every descriptor, and the
    token is left as it was. *)
Lemma expiry_skipped_on_malformed_error :
  let st := logged_in "T1"
              [(1700000000000,
                Body (JList [denied_item; denied_item;
                             JObj [("error", JStr "busy")]]))] in
  let out := _call_api_batch (update_calls "router_get_status") st in
  denied_in (next_reply (net st)) = 2
  /\ authenticated (self st) = true
  /\ fst out = Return [JNull; JNull; JNull; JNull; JNull]
  /\ session_id (self (snd out)) = JStr "T1".
Proof. vm_compute. repeat split. Qed.

(** C1, amended.  When every [error] member of the response array is an
    object: if the array holds two or more items whose error code is -32002
    and the token is not the sentinel, the token is the sentinel after the
    call.  Whatever the response: if it holds fewer than two such items, the
    batch call leaves the token unchanged. *)
Theorem batch_expiry_policy :
  forall (calls : list call) (st : State),
    let r := next_reply (net st) in
    let st' := snd (_call_api_batch calls st) in
    (errors_are_objects r = true -> 2 <= denied_in r ->
     authenticated (self st) = true ->
     session_id (self st') = JStr UNAUTHENTICATED_SESSION)
    /\ (denied_in r < 2 -> session_id (self st') = session_id (self st)).
Proof.
  intros calls st r st'. subst st'. rewrite _call_api_batch_eq. cbn [snd].
  fold r. unfold expired. split.
  - intros -> Hden ->. apply Z.leb_le in Hden. rewrite Hden. reflexivity.
  - intros Hden. apply Z.leb_gt in Hden. rewrite Hden, andb_false_r.
    reflexivity.
Qed.

Lemma batch_expiry_policy_witness :
  session_id
    (self (snd (_call_api_batch (update_calls "router_get_status")
                  (logged_in "T1"
                     [(1700000000000,
                       Body (JList [ok_item (JObj [("a", JInt 1)]);
                                    denied_item; denied_item;
                                    ok_item (JObj [("b", JInt 2)]);
                                    ok_item (JObj [("c", JInt 3)])]))]))))
  = JStr UNAUTHENTICATED_SESSION.
Proof.
  apply (batch_expiry_policy (update_calls "router_get_status")
           (logged_in "T1"
              [(1700000000000,
                Body (JList [ok_item (JObj [("a", JInt 1)]);
                             denied_item; denied_item;
                             ok_item (JObj [("b", JInt 2)]);
                             ok_item (JObj [("c", JInt 3)])]))])).
  - reflexivity.
  - vm_compute. discriminate.
  - reflexivity.
Defined.

(** A malformed [error] member fails the whole batch closed: one [None] per
    descriptor, token untouched. *)
Lemma batch_fails_closed (calls : list call) (st : State) :
  errors_are_objects (next_reply (net st)) = false ->
  fst (_call_api_batch calls st) = Return (repeat JNull (List.length calls))
  /\ session_id (self (snd (_call_api_batch calls st))) = session_id (self st).
Proof.
  intros H. rewrite _call_api_batch_eq. cbn [fst snd]. unfold expired.
  rewrite H. cbn [andb]. split; [|reflexivity].
  unfold batch_report. unfold errors_are_objects in H.
  destruct (next_reply (net st)) as [|[| | | | |items|]]; try reflexivity.
  now rewrite H.
Qed.

(** When the response array can be read to its end, the batch reports one
    result per item of the response, however many descriptors were sent. *)
Lemma batch_report_length (calls : list call) (items : list value) :
  forallb error_is_object items = true ->
  List.length (batch_report calls (Body (JList items))) = List.length items.
Proof. intros H. cbn [batch_report]. rewrite H. apply length_map. Qed.

(** In every other case it reports one [None] per descriptor. *)
Lemma batch_report_padded (calls : list call) (r : reply) :
  (forall items,
      r = Body (JList items) -> forallb error_is_object items = false) ->
  batch_report calls r = repeat JNull (List.length calls).
Proof.
  intros H. destruct r as [|[| | | | |items|]]; try reflexivity.
  cbn [batch_report]. now rewrite (H items eq_refl).
Qed.

(** C2: the code does not do what the claim says.  Five descriptors meeting
    an empty response array yield no result at all, and one descriptor
    meeting a two-item array yields two results: the length is that of the
    response, not that of the input. *)
Theorem batch_length_follows_response :
  fst (_call_api_batch (update_calls "router_get_status")
         (logged_in "T1" [(1700000000000, Body (JList []))]))
  = Return []
  /\ fst (_call_api_batch [("zwrt_wlan", "report", None)]
            (logged_in "T1"
               [(1700000000000,
                 Body (JList [ok_item (JObj [("a", JInt 1)]);
                              ok_item (JObj [("b", JInt 2)])]))]))
     = Return [JObj [("a", JInt 1)]; JObj [("b", JInt 2)]].
Proof. split; vm_compute; reflexivity. Qed.

(** ** Update *)

Lemma offline_next_reply (n : Net) : offline n -> next_reply n = Fails.
Proof.
  unfold offline, next_reply. destruct (script n) as [|[t r] rest].
  - reflexivity.
  - intros H. inversion H; subst. assumption.
Qed.

Lemma offline_posted (calls : list call) (st : State) :
  offline (net st) -> offline (net (posted calls st)).
Proof.
  unfold offline, posted. cbn [net script]. destruct (script (net st)).
  - intros _. constructor.
  - intros H. inversion H; subst. assumption.
Qed.

(** With every transport operation failing and a string for a token, an
    update returns the snapshot whose five sections are empty. *)
Lemma update_offline (st : State) (token : string) :
  offline (net st) ->
  session_id (self st) = JStr token ->
  fst (async_update st) = Return empty_snapshot.
Proof.
  intros Hoff Htok. rewrite async_update_eq. unfold update_spec.
  assert (H1 : offline (net (after_login_step st))
               /\ session_id (self (after_login_step st)) = JStr token).
  { unfold after_login_step. destruct (_ && _); [|now split].
    unfold login_spec.
    destruct (password (self st)) as [pw|]; [|now split].
    destruct (pw =? "")%string; [now split|].
    unfold salt_of. rewrite (offline_next_reply _ Hoff). cbn [payload_of snd].
    split; [now apply offline_posted|exact Htok]. }
  destruct H1 as [Hoff1 Htok1]. rewrite Htok1. cbn [fst].
  rewrite (offline_next_reply _ Hoff1). reflexivity.
Qed.

(** An update that returns, returns an object with the five section keys
    and no other. *)
Lemma update_returns_snapshot (st : State) (v : value) :
  fst (async_update st) = Return v ->
  exists fields,
    v = JObj fields
    /\ map fst fields
       = ["router_status"; "network_info"; "data_usage"; "device_info";
          "wlan_info"].
Proof.
  rewrite async_update_eq. unfold update_spec.
  destruct (session_id (self (after_login_step st))); try discriminate.
  cbn [fst]. unfold assemble.
  destruct (batch_report _ _) as [|r0 [|r1 [|r2 [|r3 [|r4 rest]]]]];
    try discriminate.
  destruct (truthy r2); [destruct r2; try discriminate|];
    intros [= <-]; eexists; split; reflexivity.
Qed.

(** C3: the code does not do what the claim says.  A router that answers
    the batch with an empty array makes the update raise [IndexError] to its
    caller: the batch hands back no results and the update indexes position
    0 of them. *)
Theorem update_raises_on_short_response :
  fst (async_update
         (fresh "192.168.0.1" None [(1700000000000, Body (JList []))]))
  = Raise IndexError.
Proof. vm_compute. reflexivity. Qed.

(** When the token is a string once the login step is over, the update
    posts exactly one more body: the envelopes of the five descriptors, in
    their fixed order, the router-status method chosen by the token. *)
Lemma update_posts_one_batch (st : State) (token : string) :
  let st1 := after_login_step st in
  session_id (self st1) = JStr token ->
  sent (net (snd (async_update st)))
  = (sent (net st1)
     ++ [(url_of st1,
          JList (envelopes (JStr token) (_request_id (self st1))
                   (update_calls
                      (if String.eqb token UNAUTHENTICATED_SESSION
                       then "router_get_status_no_auth"
                       else "router_get_status"))))])%list.
Proof.
  intros st1 Htok. rewrite async_update_eq. unfold update_spec. fold st1.
  rewrite Htok. cbn [snd]. unfold router_method, authenticated.
  rewrite Htok. cbn [eq_str].
  destruct (token =? UNAUTHENTICATED_SESSION)%string; cbn [negb];
    destruct (expired _ _); cbn [with_token posted net sent];
    rewrite Htok; reflexivity.
Qed.

(** C7: the code does not do what the claim says on every update.  When the
    login adopts a session value that is not a string, the update raises
    [TypeError] while abbreviating the token for its log line, after the two
    single-envelope login calls and before any batch is posted; the reply
    meant for the batch is still waiting. *)
Theorem update_stops_before_batch :
  let out := async_update (fresh "192.168.0.1" (Some "pass")
                             numeric_session_replies) in
  fst out = Raise TypeError
  /\ session_id (self (snd out)) = JInt 5
  /\ map (fun p => List.length (body_ids (snd p))) (sent (net (snd out)))
     = [1%nat; 1%nat]
  /\ List.length (script (net (snd out))) = 1%nat.
Proof. vm_compute. repeat split. Qed.

(** ** Login *)

Lemma float_eq_int_functional (f : spec_float) (n m : Z) :
  float_eq_int f n = true -> float_eq_int f m = true -> n = m.
Proof.
  destruct f as [s| | |s mant e]; cbn [float_eq_int]; try discriminate.
  - intros Hn Hm. apply Z.eqb_eq in Hn, Hm. congruence.
  - destruct (0 <=? e) eqn:He; intros Hn Hm; apply Z.eqb_eq in Hn, Hm.
    + congruence.
    + apply Z.leb_gt in He.
      assert (Hp : 0 < 2 ^ (- e)) by (apply Z.pow_pos_nonneg; lia).
      apply (Z.mul_reg_r _ _ (2 ^ (- e))); [lia|congruence].
Qed.

Lemma eq_int_functional (v : value) (n m : Z) :
  eq_int v n = true -> eq_int v m = true -> n = m.
Proof.
  destruct v as [|b|k|f| | |]; cbn [eq_int]; try discriminate.
  - intros Hn Hm. apply Z.eqb_eq in Hn, Hm. congruence.
  - intros Hn Hm. apply Z.eqb_eq in Hn, Hm. congruence.
  - apply float_eq_int_functional.
Qed.

(** A result code the login takes for one of 0, 1, 2 is taken for no
    other. *)
Lemma code_is_exclusive (n m : Z) (s t : string) (v : value) :
  n <> m -> s <> t ->
  code_is n s v = true -> code_is m t v = false.
Proof.
  intros Hnm Hst H. unfold code_is in *.
  apply orb_true_iff in H. apply orb_false_iff.
  destruct H as [H|H].
  - split.
    + destruct (eq_int v m) eqn:Hm; [|reflexivity].
      exfalso. apply Hnm. exact (eq_int_functional v n m H Hm).
    + destruct v; try reflexivity; discriminate.
  - destruct v as [| | | |u| |]; try discriminate. cbn [eq_int eq_str] in *.
    split; [reflexivity|]. apply String.eqb_eq in H. subst u.
    now apply String.eqb_neq.
Qed.

(** The literal codes of the device, as integers and as strings. *)
Lemma code_is_literals :
  code_is 0 "0" (JInt 0) = true /\ code_is 0 "0" (JStr "0") = true
  /\ code_is 1 "1" (JInt 1) = true /\ code_is 1 "1" (JStr "1") = true
  /\ code_is 2 "2" (JInt 2) = true /\ code_is 2 "2" (JStr "2") = true
  /\ code_is 0 "0" JNull = false /\ code_is 0 "0" (JInt 3) = false
  /\ code_is 0 "0" (JStr "ok") = false.
Proof. repeat split. Qed.






Lemma sent_after_login (st : State) (pw salt : string) :
  password (self st) = Some pw -> pw <> "" ->
  salt_of (next_reply (net st)) = Some salt ->
  sent (net (snd (async_login st)))
  = sent (net (posted [login_call (handshake_digest pw salt)]
                 (posted [login_info_call] st))).
Proof.
  intros Hp Hpw Hs. rewrite async_login_eq. unfold login_spec.
  rewrite Hp, Hs. apply String.eqb_neq in Hpw. rewrite Hpw.
  destruct (accepted _); reflexivity.
Qed.

(** C5. For every credential and salt the digest the login computes is
    uppercase(hex(SHA256(uppercase(hex(SHA256(credential))) + salt))), a
    function of the two alone; the login posts it as the [password]
    parameter of its [web_login] call, the second request of the handshake;
    and for the credential "pass" and the salt "ab12" the two digests are
    the ones SHA-256 gives. *)
Theorem login_digest_sent :
  forall (st : State) (pw salt : string),
    password (self st) = Some pw -> pw <> "" ->
    salt_of (next_reply (net st)) = Some salt ->
    login_digest pw (JStr salt) = Return (handshake_digest pw salt)
    /\ sent (net (snd (async_login st)))
       = (sent (net st)
          ++ [ (url_of st,
                JList [JObj [ ("jsonrpc", JStr "2.0");
                              ("id", JInt (_request_id (self st)));
                              ("method", JStr "call");
                              ("params",
                               JList [session_id (self st); JStr "zwrt_web";
                                      JStr "web_login_info"; JObj []]) ]]);
               (url_of (posted [login_info_call] st),
                JList [JObj [ ("jsonrpc", JStr "2.0");
                              ("id", JInt (_request_id (self st) + 1));
                              ("method", JStr "call");
                              ("params",
                               JList [session_id (self st); JStr "zwrt_web";
                                      JStr "web_login";
                                      JObj [("password",
                                             JStr (handshake_digest pw salt))]]) ]])
             ])%list
    /\ upper (Sha256.hexdigest "pass")
       = "D74FF0EE8DA3B9806B18C877DBF29BBDE50B5BD8E4DAD7A3A725000FEB82E8F1"
    /\ handshake_digest "pass" "ab12"
       = upper (Sha256.hexdigest
                  ("D74FF0EE8DA3B9806B18C877DBF29BBDE50B5BD8E4DAD7A3A725000FEB82E8F1"
                   ++ "ab12"))
    /\ handshake_digest "pass" "ab12"
       = "B8DDE7DD4B78360D9BEFDEB4D52B65D4C33932B5297ED51F34BE623A20556718".
Proof.
  intros st pw salt Hp Hpw Hs.
  split; [reflexivity|].
  split.
  - rewrite (sent_after_login st pw salt Hp Hpw Hs).
    cbn [posted net sent self session_id _request_id set__request_id
         set__session envelopes envelope login_info_call login_call
         List.length Z.of_nat Pos.of_succ_nat].
    rewrite <- app_assoc. reflexivity.
  - repeat split; vm_compute; reflexivity.
Qed.

Lemma login_digest_sent_witness :
  map snd
    (sent (net (snd (async_login
                       (fresh "192.168.0.1" (Some "pass") accepting_replies)))))
  = [ JList [envelope (JStr UNAUTHENTICATED_SESSION) 1 login_info_call];
      JList [envelope (JStr UNAUTHENTICATED_SESSION) 2
               (login_call (handshake_digest "pass" "ab12"))] ].
Proof.
  destruct (login_digest_sent
              (fresh "192.168.0.1" (Some "pass") accepting_replies)
              "pass" "ab12") as [_ [Hsent _]].
  - reflexivity.
  - discriminate.
  - reflexivity.
  - rewrite Hsent. reflexivity.
Defined.

(** ** Request ids *)

Lemma body_ids_envelopes (token : value) (calls : list call) :
  forall id, body_ids (JList (envelopes token id calls))
             = zseq id (List.length calls).
Proof.
  induction calls as [|[[ns m] p] rest IH]; intros id; [reflexivity|].
  cbn [envelopes List.length zseq]. specialize (IH (id + 1)).
  cbn [body_ids] in *. cbn [flat_map envelope]. rewrite IH. reflexivity.
Qed.

Lemma sent_ids_posted (calls : list call) (st : State) :
  sent_ids (net (posted calls st))
  = (sent_ids (net st)
     ++ zseq (_request_id (self st)) (List.length calls))%list.
Proof.
  unfold sent_ids, posted. cbn [net sent]. rewrite flat_map_app.
  cbn [flat_map snd]. now rewrite body_ids_envelopes, app_nil_r.
Qed.

Lemma zseq_app (n m : nat) :
  forall a, (zseq a n ++ zseq (a + Z.of_nat n) m)%list = zseq a (n + m).
Proof.
  induction n as [|n IH]; intros a.
  - cbn. now rewrite Z.add_0_r.
  - cbn [zseq app Nat.add]. f_equal. rewrite <- IH. do 2 f_equal. lia.
Qed.

Lemma zseq_length (n : nat) : forall a, List.length (zseq a n) = n.
Proof. induction n as [|n IH]; intros a; cbn; [|rewrite IH]; reflexivity. Qed.

Lemma zseq_lower (n : nat) : forall a x, In x (zseq a n) -> a <= x.
Proof.
  induction n as [|n IH]; intros a x; cbn [zseq In]; [tauto|].
  intros [<-|H]; [lia|]. apply IH in H. lia.
Qed.

Lemma zseq_sorted (n : nat) : forall a, StronglySorted Z.lt (zseq a n).
Proof.
  induction n as [|n IH]; intros a; cbn [zseq]; constructor.
  - apply IH.
  - apply Forall_forall. intros x Hx. apply zseq_lower in Hx. lia.
Qed.

Lemma zseq_nodup (n : nat) : forall a, NoDup (zseq a n).
Proof.
  induction n as [|n IH]; intros a; cbn [zseq]; constructor.
  - intros H. apply zseq_lower in H. lia.
  - apply IH.
Qed.

Lemma evolves_ids (st st' : State) :
  evolves st st' -> ids_in_step st -> ids_in_step st'.
Proof.
  intros Hev Hst. induction Hev as [|calls st' Hev IH|v st' Hev IH|h st' Hev IH].
  - exact Hst.
  - destruct IH as [k [Hs Hr]]. exists (k + List.length calls)%nat.
    rewrite sent_ids_posted, Hs, Hr, zseq_app. split; [reflexivity|].
    unfold posted. cbn [self _request_id set__request_id]. lia.
  - exact IH.
  - exact IH.
Qed.

(** C8. A client starts with request id 1; building an envelope gives it
    the current id and moves the counter up by one; and over any sequence of
    operations of one client, whatever the network answers or fails to
    answer, the ids of the envelopes posted are 1, 2, 3, ... in the order of
    posting: strictly increasing, never repeated. *)
Theorem request_ids_strictly_increase :
  forall (host : string) (password : option string)
         (replies : list (Z * reply)) (os : list op),
    let st := run_ops os (fresh host password replies) in
    let ids := sent_ids (net st) in
    _request_id (__init__ host password) = 1
    /\ (forall namespace method params (s : State),
          exists fields,
            fst (_create_rpc_request namespace method params s)
            = Return (JObj fields)
            /\ lookup "id" fields = Some (JInt (_request_id (self s)))
            /\ _request_id (self (snd (_create_rpc_request namespace method
                                         params s)))
               = _request_id (self s) + 1)
    /\ ids = zseq 1 (List.length ids)
    /\ StronglySorted Z.lt ids
    /\ NoDup ids
    /\ _request_id (self st) = 1 + Z.of_nat (List.length ids).
Proof.
  intros host password replies os st ids.
  split; [reflexivity|].
  split; [intros; eexists; repeat split|].
  assert (H : ids_in_step st).
  { apply (evolves_ids (fresh host password replies)).
    - apply run_ops_evolves.
    - exists 0%nat. split; reflexivity. }
  destruct H as [k [Hs Hr]]. subst ids. rewrite Hs, zseq_length.
  repeat split.
  - apply zseq_sorted.
  - apply zseq_nodup.
  - exact Hr.
Qed.

(** ** Frame *)




(** A single call answered with an access-denied error keeps its token. *)
Example call_one_keeps_token_on_access_denied :
  session_id
    (self (snd (_call_api "zwrt_wlan" "report" None
                  (logged_in "T1"
                     [(1700000000000, Body (JList [denied_item]))]))))
  = JStr "T1".
Proof. reflexivity. Qed.


(** ** HTTP session *)

(** X1. Closing is idempotent and leaves the network alone; it changes
    nothing unless a session is open (never opened, or closed before: a
    no-op); every call, single or batched, leaves a session open, also when
    the one before was closed. *)
Theorem session_lifecycle :
  forall st : State,
    snd (close (snd (close st))) = snd (close st)
    /\ net (snd (close st)) = net st
    /\ (_session (self st) = Open \/ snd (close st) = st)
    /\ (forall namespace method params,
          _session (self (snd (_call_api namespace method params st))) = Open
          /\ _session (self (snd (_call_api namespace method params
                                    (snd (close st))))) = Open)
    /\ (forall calls,
          _session (self (snd (_call_api_batch calls st))) = Open
          /\ _session (self (snd (_call_api_batch calls (snd (close st)))))
             = Open).
Proof.
  intros [c n]. rewrite !close_eq. cbn [snd self net].
  split; [destruct c as [h p b s [] i]; reflexivity|].
  split; [reflexivity|].
  split; [destruct c as [h p b s [] i]; auto|].
  split.
  - intros ns m p. rewrite !_call_api_eq. split; reflexivity.
  - intros calls. rewrite !_call_api_batch_eq. cbn [snd].
    split; destruct (expired _ _); reflexivity.
Qed.

(** ** Single getters *)

(** X2. The three single getters never raise, return the payload of the
    reply, leave the token alone, and post one envelope each: the very
    descriptors an update puts at positions 0, 1 and 2 of its batch, the
    router-status method chosen by the token in the same way. *)
Theorem getters_ask_what_the_batch_asks :
  forall st : State,
    exists c0 c1 c2 others,
      update_calls (router_method (self st)) = c0 :: c1 :: c2 :: others
      /\ async_get_router_status st
         = (Return (payload_of (next_reply (net st))), posted [c0] st)
      /\ async_get_network_info st
         = (Return (payload_of (next_reply (net st))), posted [c1] st)
      /\ async_get_data_usage st
         = (Return (payload_of (next_reply (net st))), posted [c2] st)
      /\ forall cl, session_id (self (posted [cl] st)) = session_id (self st).
Proof.
  intros st. do 4 eexists. split; [reflexivity|].
  split.
  - unfold async_get_router_status, bind, get_self. cbn [self].
    rewrite _call_api_eq. unfold router_method.
    destruct (authenticated (self st)); reflexivity.
  - split; [apply _call_api_eq|]. split; [apply _call_api_eq|]. reflexivity.
Qed.

(** ** Single call against batch *)

(** X3. A single call does not look at the [error] member of the item it
    reads, whatever that member is: it returns index 1 of the item's
    [result] array whenever there is one.  On a response whose error members
    are objects, a batch of one call agrees with it on an item without
    [error] member, and reports [None] for an item that has one. *)
Theorem single_call_ignores_error_member :
  forall (namespace method : string) (params : option dict) (st : State)
         (d : dict) (rest : list value),
    next_reply (net st) = Body (JList (JObj d :: rest)) ->
    let payload := second_of (get_default "result" (JList []) d) in
    fst (_call_api namespace method params st) = Return payload
    /\ (forallb error_is_object (JObj d :: rest) = true ->
        exists others,
          fst (_call_api_batch [(namespace, method, params)] st)
          = Return ((match lookup "error" d with
                     | None => payload
                     | Some _ => JNull
                     end) :: others)).
Proof.
  intros ns m p st d rest Hr payload.
  rewrite _call_api_eq, _call_api_batch_eq, Hr. cbn [fst].
  split; [reflexivity|]. intros Hok.
  unfold batch_report. rewrite Hok. cbn [map item_result].
  eexists. reflexivity.
Qed.

Lemma single_call_ignores_error_member_witness :
  fst (_call_api "zwrt_wlan" "report" None
         (logged_in "T1"
            [(1700000000000,
              Body (JList [JObj [("error", JStr "busy");
                                 ("result", JList [JInt 0; JStr "x"])]]))]))
  = Return (JStr "x")
  /\ exists others,
       fst (_call_api_batch [("zwrt_wlan", "report", None)]
              (logged_in "T1"
                 [(1700000000000,
                   Body (JList [JObj [("error", JObj [("code", JInt 5)]);
                                      ("result",
                                       JList [JInt 0; JStr "busy"])]]))]))
       = Return (JNull :: others).
Proof.
  split.
  - apply (single_call_ignores_error_member "zwrt_wlan" "report" None
             (logged_in "T1"
                [(1700000000000,
                  Body (JList [JObj [("error", JStr "busy");
                                     ("result", JList [JInt 0; JStr "x"])]]))])
             [("error", JStr "busy"); ("result", JList [JInt 0; JStr "x"])]
             []).
    reflexivity.
  - apply (single_call_ignores_error_member "zwrt_wlan" "report" None
             (logged_in "T1"
                [(1700000000000,
                  Body (JList [JObj [("error", JObj [("code", JInt 5)]);
                                     ("result",
                                      JList [JInt 0; JStr "busy"])]]))])
             [("error", JObj [("code", JInt 5)]);
              ("result", JList [JInt 0; JStr "busy"])] []).
    + reflexivity.
    + reflexivity.
Defined.

(** ** What a login sends *)

(** X4. A login sends nothing at all, or the [web_login_info] request
    alone, or that request followed by [web_login] carrying the digest of the
    stored password and the salt just received; the third only with a
    non-empty password and a reply whose salt is a string.  Nothing else ever
    leaves the client during a login. *)
Theorem login_traffic :
  forall st : State,
    let sent' := sent (net (snd (async_login st))) in
    let info := (url_of st,
                 JList [envelope (session_id (self st))
                          (_request_id (self st)) login_info_call]) in
    (has_password (self st) = false /\ snd (async_login st) = st)
    \/ (has_password (self st) = true
        /\ salt_of (next_reply (net st)) = None
        /\ sent' = (sent (net st) ++ [info])%list)
    \/ (exists pw salt,
          password (self st) = Some pw /\ pw <> ""
          /\ salt_of (next_reply (net st)) = Some salt
          /\ sent' = (sent (net st)
                      ++ [info;
                          (url_of (posted [login_info_call] st),
                           JList [envelope (session_id (self st))
                                    (_request_id (self st) + 1)
                                    (login_call (handshake_digest pw salt))])
                         ])%list).
Proof.
  intros st sent' info. subst sent' info. rewrite async_login_eq.
  unfold login_spec, has_password.
  destruct (password (self st)) as [pw|] eqn:Hp; [|left; now split].
  destruct (pw =? "")%string eqn:Hpw; [left; now split|].
  cbn [negb]. right.
  destruct (salt_of (next_reply (net st))) as [salt|] eqn:Hs.
  - right. exists pw, salt. apply String.eqb_neq in Hpw.
    repeat (split; [assumption || reflexivity|]).
    destruct (accepted _); cbn [snd with_token posted net sent self session_id
      _request_id set__request_id set__session envelopes List.length
      Z.of_nat Pos.of_succ_nat]; rewrite <- app_assoc; reflexivity.
  - left. repeat split.
Qed.

(** ** A client without a password *)

Lemma no_password_step (o : op) (st : State) :
  password (self st) = None ->
  session_id (self st) = JStr UNAUTHENTICATED_SESSION ->
  password (self (run_op o st)) = None
  /\ session_id (self (run_op o st)) = JStr UNAUTHENTICATED_SESSION.
Proof.
  intros Hp Hs.
  assert (Hexp : forall r, expired r (self st) = false).
  { intros r. unfold expired, authenticated. rewrite Hs.
    apply andb_false_r. }
  destruct o as [ns m p|calls| | |]; cbn [run_op].
  - rewrite _call_api_eq. now split.
  - rewrite _call_api_batch_eq, Hexp. now split.
  - rewrite async_login_eq. unfold login_spec. rewrite Hp. now split.
  - rewrite async_update_eq. unfold update_spec, after_login_step, has_password.
    rewrite Hp. cbn [andb]. rewrite Hs, Hexp. now split.
  - rewrite close_eq. now split.
Qed.

(** X5. A client made without a password never leaves the unauthenticated
    state: after any sequence of single calls, batches, logins, updates and
    closes, whatever the router answered, its token is the sentinel. *)
Theorem no_password_stays_unauthenticated :
  forall (host : string) (replies : list (Z * reply)) (os : list op),
    session_id (self (run_ops os (fresh host None replies)))
    = JStr UNAUTHENTICATED_SESSION.
Proof.
  intros host replies os.
  assert (H : forall st,
             password (self st) = None ->
             session_id (self st) = JStr UNAUTHENTICATED_SESSION ->
             session_id (self (run_ops os st)) = JStr UNAUTHENTICATED_SESSION).
  { induction os as [|o os IH]; intros st Hp Hs; [exact Hs|].
    cbn [run_ops fold_left].
    destruct (no_password_step o st Hp Hs) as [Hp' Hs'].
    exact (IH _ Hp' Hs'). }
  apply H; reflexivity.
Qed.

(** ** What an update sends *)

Lemma grows_refl (st : State) : grows 0 st st.
Proof. exists []. now rewrite app_nil_r. Qed.

Lemma tl_skipn {A} (k : nat) : forall l : list A, tl (skipn k l) = skipn (S k) l.
Proof.
  induction k as [|k IH]; intros [|x l]; try reflexivity.
  cbn [skipn]. rewrite IH. reflexivity.
Qed.

Lemma grows_posted (k : nat) (calls : list call) (st st' : State) :
  grows k st st' -> grows (S k) st (posted calls st').
Proof.
  intros [extra [Hl [Hs Hr]]]. unfold posted. cbn [net sent script].
  eexists (extra ++ [_])%list. rewrite Hs, Hr, <- app_assoc, length_app, Hl.
  cbn [List.length]. rewrite tl_skipn. repeat split. lia.
Qed.

Lemma grows_with_token (k : nat) (v : value) (st st' : State) :
  grows k st st' -> grows k st (with_token v st').
Proof. intros H. exact H. Qed.

Lemma login_spec_grows (st : State) :
  exists k, (k <= 2)%nat /\ grows k st (snd (login_spec st)).
Proof.
  unfold login_spec.
  destruct (password (self st)) as [pw|];
    [|exists 0%nat; split; [lia|apply grows_refl]].
  destruct (pw =? "")%string; [exists 0%nat; split; [lia|apply grows_refl]|].
  destruct (salt_of _).
  - exists 2%nat. split; [lia|].
    destruct (accepted _); cbn [snd]; try apply grows_with_token;
      apply grows_posted, grows_posted, grows_refl.
  - exists 1%nat. split; [lia|]. apply grows_posted, grows_refl.
Qed.

Lemma grows_trans (j k : nat) (a b c : State) :
  grows j a b -> grows k b c -> grows (j + k) a c.
Proof.
  intros [e1 [L1 [S1 R1]]] [e2 [L2 [S2 R2]]]. exists (e1 ++ e2)%list.
  rewrite length_app, L1, L2, S2, S1, R2, R1, <- app_assoc, skipn_skipn.
  repeat split. f_equal. lia.
Qed.

Lemma update_tail_grows (st1 : State) :
  exists k, (k <= 1)%nat
            /\ grows k st1
                 (snd (match session_id (self st1) with
                       | JStr _ =>
                           (assemble (batch_report
                                        (update_calls (router_method (self st1)))
                                        (next_reply (net st1))),
                            if expired (next_reply (net st1)) (self st1)
                            then with_token (JStr UNAUTHENTICATED_SESSION)
                                   (posted (update_calls
                                              (router_method (self st1))) st1)
                            else posted (update_calls
                                           (router_method (self st1))) st1)
                       | _ => (Raise TypeError, st1)
                       end)).
Proof.
  destruct (session_id (self st1));
    try (exists 0%nat; split; [lia|apply grows_refl]).
  exists 1%nat. split; [lia|]. cbn [snd].
  destruct (expired _ _); try apply grows_with_token;
    apply grows_posted, grows_refl.
Qed.

(** X6. An update posts at most three requests and consumes exactly as
    many replies as it posts; when no login is due (no password, or a token
    that is not the sentinel) it posts at most one. *)
Theorem update_traffic :
  forall st : State,
    exists k : nat,
      grows k st (snd (async_update st))
      /\ (k <= 3)%nat
      /\ (has_password (self st) = false \/ authenticated (self st) = true ->
          (k <= 1)%nat).
Proof.
  intros st. rewrite async_update_eq. unfold update_spec.
  destruct (update_tail_grows (after_login_step st)) as [k2 [Hk2 Hg2]].
  unfold after_login_step in *.
  destruct (has_password (self st)
            && eq_str (session_id (self st)) UNAUTHENTICATED_SESSION) eqn:Hdue.
  - destruct (login_spec_grows st) as [k1 [Hk1 Hg1]].
    exists (k1 + k2)%nat. split; [exact (grows_trans _ _ _ _ _ Hg1 Hg2)|].
    split; [lia|]. apply andb_true_iff in Hdue. destruct Hdue as [Hp Ht].
    unfold authenticated. rewrite Hp, Ht. intros [H|H]; discriminate.
  - exists k2. split; [exact Hg2|]. split; lia.
Qed.

Lemma login_spec_sent_head (st : State) :
  has_password (self st) = true ->
  exists more,
    sent (net (snd (login_spec st)))
    = (sent (net st)
       ++ (url_of st,
           JList [envelope (session_id (self st)) (_request_id (self st))
                    login_info_call]) :: more)%list.
Proof.
  unfold has_password, login_spec.
  destruct (password (self st)) as [pw|]; [|discriminate].
  destruct (pw =? "")%string; [discriminate|]. intros _.
  destruct (salt_of _).
  - eexists [_]. destruct (accepted _);
      cbn [snd with_token posted net sent]; rewrite <- app_assoc; reflexivity.
  - exists []. reflexivity.
Qed.

(** X7. Recovery from an expired session takes two updates.  A client with
    a password and a token that is not the sentinel, whose batch meets two
    or more access-denied items (in a response whose error members are
    objects), ends that update with the sentinel for a token; and the update
    after it starts with a [web_login_info] request, carrying the sentinel
    and the request id that follows the five of the batch. *)
Theorem expired_session_logs_in_again :
  forall (st : State) (token : string),
    has_password (self st) = true ->
    session_id (self st) = JStr token ->
    token <> UNAUTHENTICATED_SESSION ->
    errors_are_objects (next_reply (net st)) = true ->
    2 <= denied_in (next_reply (net st)) ->
    let st1 := snd (async_update st) in
    session_id (self st1) = JStr UNAUTHENTICATED_SESSION
    /\ exists more,
         sent (net (snd (async_update st1)))
         = (sent (net st1)
            ++ (url_of st1,
                JList [envelope (JStr UNAUTHENTICATED_SESSION)
                         (_request_id (self st) + 5) login_info_call])
               :: more)%list.
Proof.
  intros st token Hp Hs Htok Hobj Hden st1.
  assert (Hst1 : st1 = with_token (JStr UNAUTHENTICATED_SESSION)
                         (posted (update_calls "router_get_status") st)).
  { subst st1. rewrite async_update_eq. unfold update_spec, after_login_step.
    rewrite Hs. cbn [eq_str]. apply String.eqb_neq in Htok. rewrite Htok.
    rewrite andb_false_r, Hs. cbn [snd].
    unfold expired, router_method, authenticated. rewrite Hs, Hobj.
    cbn [eq_str]. rewrite Htok. apply Z.leb_le in Hden. rewrite Hden.
    reflexivity. }
  split; [rewrite Hst1; reflexivity|].
  assert (Hp1 : has_password (self st1) = true) by (rewrite Hst1; exact Hp).
  assert (Hs1 : session_id (self st1) = JStr UNAUTHENTICATED_SESSION)
    by (rewrite Hst1; reflexivity).
  assert (Hid : _request_id (self st1) = _request_id (self st) + 5)
    by (rewrite Hst1; reflexivity).
  rewrite async_update_eq. unfold update_spec, after_login_step.
  rewrite Hp1, Hs1. cbn [eq_str]. rewrite String.eqb_refl. cbn [andb].
  destruct (login_spec_sent_head st1 Hp1) as [more Hmore].
  rewrite Hs1, Hid in Hmore.
  destruct (update_tail_grows (snd (login_spec st1))) as [k [_ [extra [_ [Hx _]]]]].
  exists (more ++ extra)%list. rewrite Hx, Hmore, <- app_assoc. reflexivity.
Qed.

Lemma expired_session_logs_in_again_witness :
  session_id
    (self (snd (async_update
                  (logged_in "T1"
                     [(1700000000000,
                       Body (JList [denied_item; denied_item])) ]))))
  = JStr UNAUTHENTICATED_SESSION.
Proof.
  apply (expired_session_logs_in_again
           (logged_in "T1"
              [(1700000000000, Body (JList [denied_item; denied_item]))])
           "T1").
  - reflexivity.
  - reflexivity.
  - discriminate.
  - reflexivity.
  - vm_compute. discriminate.
Defined.

(** ** Shape of the digest *)

Lemma round_length (h : list Z) (kw : Z * Z) :
  List.length h = 8%nat -> List.length (Sha256.round h kw) = 8%nat.
Proof.
  destruct h as [|a [|b [|c [|d [|e [|f [|g [|hh [|x t]]]]]]]]];
    try discriminate. reflexivity.
Qed.

Lemma rounds_length (kws : list (Z * Z)) :
  forall h, List.length h = 8%nat ->
            List.length (fold_left Sha256.round kws h) = 8%nat.
Proof.
  induction kws as [|kw kws IH]; intros h Hh; [exact Hh|].
  cbn [fold_left]. apply IH, round_length, Hh.
Qed.

Lemma compress_length (h block : list Z) :
  List.length h = 8%nat -> List.length (Sha256.compress h block) = 8%nat.
Proof.
  intros Hh. unfold Sha256.compress.
  rewrite length_map, length_combine, rounds_length, Hh by exact Hh.
  reflexivity.
Qed.

Lemma compress_all_length (bs : list (list Z)) :
  forall h, List.length h = 8%nat ->
            List.length (fold_left Sha256.compress bs h) = 8%nat.
Proof.
  induction bs as [|b bs IH]; intros h Hh; [exact Hh|].
  cbn [fold_left]. apply IH, compress_length, Hh.
Qed.

Lemma hex_digit_upper (n : Z) :
  upper_hex (upper_char (Sha256.hex_digit n)) = true.
Proof.
  unfold Sha256.hex_digit.
  destruct (Z.to_nat n) as [|[|[|[|[|[|[|[|[|[|[|[|[|[|[|[|k]]]]]]]]]]]]]]]];
    try reflexivity.
  cbn. destruct k; reflexivity.
Qed.

Lemma upper_chars (l : list ascii) :
  list_ascii_of_string (upper (string_of_list_ascii l)) = map upper_char l.
Proof.
  induction l as [|a l IH]; [reflexivity|].
  cbn [string_of_list_ascii map].
  change (upper (String a (string_of_list_ascii l)))
    with (String (upper_char a) (upper (string_of_list_ascii l))).
  cbn [list_ascii_of_string]. now rewrite IH.
Qed.

Lemma string_length_chars (s : string) :
  String.length s = List.length (list_ascii_of_string s).
Proof. induction s as [|a s IH]; cbn; [|rewrite IH]; reflexivity. Qed.

Lemma upper_hex_digest (words : list Z) :
  Forall (fun a => upper_hex a = true)
    (list_ascii_of_string
       (upper (Sha256.hex (flat_map (Sha256.be_bytes 4) words))))
  /\ String.length (upper (Sha256.hex (flat_map (Sha256.be_bytes 4) words)))
     = (8 * List.length words)%nat.
Proof.
  rewrite string_length_chars. unfold Sha256.hex. rewrite upper_chars.
  induction words as [|w words [IHa IHl]]; [split; [constructor|reflexivity]|].
  change (flat_map (Sha256.be_bytes 4) (w :: words))
    with (Sha256.be_bytes 4 w ++ flat_map (Sha256.be_bytes 4) words)%list.
  rewrite flat_map_app, map_app. split.
  - apply Forall_app. split; [|exact IHa].
    cbn [Sha256.be_bytes flat_map map app].
    repeat (constructor; [apply hex_digit_upper|]). constructor.
  - rewrite length_app, IHl. cbn [Sha256.be_bytes flat_map map app List.length].
    lia.
Qed.

(** X8. Whatever the password and the salt, the digest a login sends is a
    string of exactly 64 characters, each a digit or a capital letter from A
    to F. *)
Theorem digest_is_64_upper_hex :
  forall pw salt : string,
    String.length (handshake_digest pw salt) = 64%nat
    /\ Forall (fun a => upper_hex a = true)
         (list_ascii_of_string (handshake_digest pw salt))
    /\ login_digest pw (JStr salt) = Return (handshake_digest pw salt).
Proof.
  intros pw salt. unfold handshake_digest, Sha256.hexdigest, Sha256.digest.
  set (msg := Sha256.bytes_of _).
  set (bs := Sha256.blocks _ _).
  destruct (upper_hex_digest (fold_left Sha256.compress bs Sha256.H0))
    as [Ha Hl].
  rewrite compress_all_length in Hl by reflexivity.
  split; [exact Hl|]. split; [exact Ha|reflexivity].
Qed.

(** ** What an update returns *)

Lemma no_login_due (st : State) (token : string) :
  session_id (self st) = JStr token ->
  has_password (self st) = false \/ token <> UNAUTHENTICATED_SESSION ->
  after_login_step st = st.
Proof.
  intros Hs Hdue. unfold after_login_step. rewrite Hs. cbn [eq_str].
  destruct Hdue as [-> | H]; [reflexivity|].
  apply String.eqb_neq in H. rewrite H. now rewrite andb_false_r.
Qed.

(** X9. An update with no login due, whose batch is answered by an array
    of five or more items (every error member an object, the result at
    position 2 falsy or an object), returns the snapshot of the first five
    results in the fixed order of the sections; what the array holds beyond
    the fifth item does not show in the snapshot. *)
Theorem update_reads_first_five :
  forall (st : State) (token : string) (i0 i1 i2 i3 i4 : value)
         (more : list value),
    session_id (self st) = JStr token ->
    has_password (self st) = false \/ token <> UNAUTHENTICATED_SESSION ->
    next_reply (net st) = Body (JList (i0 :: i1 :: i2 :: i3 :: i4 :: more)) ->
    forallb error_is_object (i0 :: i1 :: i2 :: i3 :: i4 :: more) = true ->
    truthy (item_result i2) = false \/ (exists d, item_result i2 = JObj d) ->
    fst (async_update st)
    = Return (JObj [ ("router_status", or_empty (item_result i0));
                     ("network_info", or_empty (item_result i1));
                     ("data_usage", or_empty (item_result i2));
                     ("device_info", or_empty (item_result i3));
                     ("wlan_info", or_empty (item_result i4)) ]).
Proof.
  intros st token i0 i1 i2 i3 i4 more Hs Hdue Hr Hok H2.
  rewrite async_update_eq. unfold update_spec.
  rewrite (no_login_due st token Hs Hdue), Hs, Hr. cbn [fst].
  unfold batch_report. rewrite Hok. cbn [map assemble].
  destruct H2 as [H2 | [d H2]]; rewrite H2; [reflexivity|].
  destruct (truthy (JObj d)); reflexivity.
Qed.

Lemma update_reads_first_five_witness :
  fst (async_update
         (logged_in "T1"
            [(1700000000000,
              Body (JList [ok_item (JObj [("a", JInt 1)]); denied_item;
                           ok_item (JObj [("b", JInt 2)]);
                           ok_item (JObj []); ok_item (JStr "up");
                           ok_item (JObj [("ignored", JInt 6)])]))]))
  = Return (JObj [ ("router_status", JObj [("a", JInt 1)]);
                   ("network_info", JObj []);
                   ("data_usage", JObj [("b", JInt 2)]);
                   ("device_info", JObj []);
                   ("wlan_info", JStr "up") ]).
Proof.
  apply (update_reads_first_five
           (logged_in "T1"
              [(1700000000000,
                Body (JList [ok_item (JObj [("a", JInt 1)]); denied_item;
                             ok_item (JObj [("b", JInt 2)]);
                             ok_item (JObj []); ok_item (JStr "up");
                             ok_item (JObj [("ignored", JInt 6)])]))])
           "T1" (ok_item (JObj [("a", JInt 1)])) denied_item
           (ok_item (JObj [("b", JInt 2)])) (ok_item (JObj []))
           (ok_item (JStr "up")) [ok_item (JObj [("ignored", JInt 6)])]).
  - reflexivity.
  - right. discriminate.
  - reflexivity.
  - reflexivity.
  - right. eexists. reflexivity.
Defined.

(** X10. Whenever an update returns, its five sections show the first
    five results of its batch (the batch of the five descriptors, run in the
    state the login step left) as they were received: a truthy result is the
    section itself, unchanged; a falsy one gives the empty mapping.  The
    [data_usage] section is always a mapping; the other four need not be. *)
Theorem sections_of_a_snapshot :
  forall (st : State) (v : value),
    fst (async_update st) = Return v ->
    let st1 :=
      if has_password (self st)
         && eq_str (session_id (self st)) UNAUTHENTICATED_SESSION
      then snd (async_login st) else st in
    let method :=
      if authenticated (self st1) then "router_get_status"
      else "router_get_status_no_auth" in
    exists r0 r1 r2 r3 r4 more s0 s1 s3 s4 d2,
      fst (_call_api_batch (update_calls method) st1)
      = Return (r0 :: r1 :: r2 :: r3 :: r4 :: more)
      /\ v = JObj [ ("router_status", s0); ("network_info", s1);
                    ("data_usage", JObj d2); ("device_info", s3);
                    ("wlan_info", s4) ]
      /\ shown r0 s0 /\ shown r1 s1 /\ shown r2 (JObj d2)
      /\ shown r3 s3 /\ shown r4 s4.
Proof.
  intros st v. rewrite async_update_eq. unfold update_spec, after_login_step.
  rewrite async_login_eq. cbn [snd].
  set (st1 := if has_password (self st)
                 && eq_str (session_id (self st)) UNAUTHENTICATED_SESSION
              then snd (login_spec st) else st).
  cbv zeta. fold (router_method (self st1)).
  rewrite _call_api_batch_eq. cbn [fst].
  destruct (session_id (self st1)); try discriminate.
  cbn [fst]. unfold assemble.
  destruct (batch_report _ _) as [|r0 [|r1 [|r2 [|r3 [|r4 rest]]]]];
    try discriminate.
  assert (Hshown : forall r, shown r (or_empty r)).
  { intros r. unfold shown, or_empty. destruct (truthy r); auto. }
  destruct (truthy r2) eqn:H2.
  - destruct r2 as [| | | | | |d2]; try discriminate. intros [= <-].
    exists r0, r1, (JObj d2), r3, r4, rest,
      (or_empty r0), (or_empty r1), (or_empty r3), (or_empty r4), d2.
    split; [reflexivity|]. split.
    + unfold snapshot. unfold or_empty at 3. rewrite H2. reflexivity.
    + repeat split; try apply Hshown. left. split; [exact H2|reflexivity].
  - intros [= <-].
    exists r0, r1, r2, r3, r4, rest,
      (or_empty r0), (or_empty r1), (or_empty r3), (or_empty r4), [].
    split; [reflexivity|]. split.
    + unfold snapshot. unfold or_empty at 3. rewrite H2. reflexivity.
    + repeat split; try apply Hshown. right. split; [exact H2|reflexivity].
Qed.

Lemma sections_of_a_snapshot_witness :
  exists r0 r1 r2 r3 r4 more s0 s1 s3 s4 d2,
    fst (_call_api_batch (update_calls "router_get_status")
           (logged_in "T1"
              [(1700000000000,
                Body (JList [ok_item (JObj [("a", JInt 1)]); denied_item;
                             ok_item (JObj [("b", JInt 2)]);
                             ok_item (JObj []); ok_item (JStr "up");
                             ok_item (JObj [("ignored", JInt 6)])]))]))
    = Return (r0 :: r1 :: r2 :: r3 :: r4 :: more)
    /\ JObj [ ("router_status", JObj [("a", JInt 1)]);
              ("network_info", JObj []);
              ("data_usage", JObj [("b", JInt 2)]);
              ("device_info", JObj []);
              ("wlan_info", JStr "up") ]
       = JObj [ ("router_status", s0); ("network_info", s1);
                ("data_usage", JObj d2); ("device_info", s3);
                ("wlan_info", s4) ]
    /\ shown r0 s0 /\ shown r1 s1 /\ shown r2 (JObj d2)
    /\ shown r3 s3 /\ shown r4 s4.
Proof.
  apply (sections_of_a_snapshot
           (logged_in "T1"
              [(1700000000000,
                Body (JList [ok_item (JObj [("a", JInt 1)]); denied_item;
                             ok_item (JObj [("b", JInt 2)]);
                             ok_item (JObj []); ok_item (JStr "up");
                             ok_item (JObj [("ignored", JInt 6)])]))])).
  reflexivity.
Defined.

(** ** Config flow *)

Lemma login_spec_opens (st : State) :
  has_password (self st) = true ->
  _session (self (snd (login_spec st))) = Open.
Proof.
  unfold has_password, login_spec.
  destruct (password (self st)) as [pw|]; [|discriminate].
  destruct (pw =? "")%string; [discriminate|]. intros _.
  destruct (salt_of _); [destruct (accepted _)|]; reflexivity.
Qed.

Lemma update_spec_opens (st : State) (token : string) :
  session_id (self st) = JStr token ->
  _session (self (snd (update_spec st))) = Open.
Proof.
  intros Hs. unfold update_spec.
  assert (H1 : _session (self (after_login_step st)) = Open
               \/ after_login_step st = st).
  { unfold after_login_step.
    destruct (has_password (self st)) eqn:Hp; [|now right].
    destruct (eq_str _ _); [|now right].
    left. now apply login_spec_opens. }
  destruct (session_id (self (after_login_step st))) eqn:Hs1;
    try (destruct H1 as [H1|H1]; [exact H1|rewrite H1 in Hs1; congruence]).
  cbn [snd]. destruct (expired _ _); reflexivity.
Qed.

Lemma test_connection_eq (unique_id : string -> outcome unit)
    (input : ConfigFlow.UserInput) (st : State) :
  ConfigFlow.test_connection unique_id input st
  = (Return (connection_verdict (fst (async_update st))
               (unique_id (ConfigFlow.CONF_HOST input)) input),
     snd (close (snd (async_update st)))).
Proof.
  unfold ConfigFlow.test_connection. unfold bind at 1. unfold try_except.
  unfold bind at 1.
  destruct (async_update st) as [[data|e] [[h p b s hs i] n]]; cbn [fst snd].
  - unfold connection_verdict.
    destruct (unique_id (ConfigFlow.CONF_HOST input)) as [[]|e] eqn:Hu.
    + destruct data as [|[]|z|[]|str|[]|[|kv d]];
        try (destruct hs; reflexivity).
      * unfold bind, lift, ret. cbn [truthy]. destruct (negb (z =? 0));
          destruct hs; reflexivity.
      * unfold bind, lift, ret. cbn [truthy]. destruct (negb (str =? "")%string);
          destruct hs; reflexivity.
      * unfold bind, lift, ret. cbn [truthy ConfigFlow.any_values].
        destruct (existsb truthy (map snd (kv :: d))); cbn [negb];
          rewrite ?Hu; destruct hs; reflexivity.
    + destruct data as [|[]|z|[]|str|[]|[|kv d]];
        try (destruct hs; reflexivity).
      * unfold bind, lift, ret. cbn [truthy]. destruct (negb (z =? 0));
          destruct hs; reflexivity.
      * unfold bind, lift, ret. cbn [truthy]. destruct (negb (str =? "")%string);
          destruct hs; reflexivity.
      * unfold bind, lift, ret. cbn [truthy ConfigFlow.any_values].
        destruct (existsb truthy (map snd (kv :: d))); cbn [negb];
          rewrite ?Hu; destruct hs; reflexivity.
  - destruct hs; reflexivity.
Qed.

(** X11. The user step never raises.  Without input it shows the form with
    no error and makes no client.  With input it makes one client for the
    host and the password given, runs one update on it and leaves its HTTP
    session closed; it creates the entry exactly when the update returned a
    snapshot with a truthy section and the unique-id step passed; an update
    that raises, a snapshot of empty sections and a unique-id step that
    raises all show the form with [cannot_connect]. *)
Theorem user_step_verdict :
  forall (DEFAULT_HOST : string) (unique_id : string -> outcome unit)
         (n : Net),
    ConfigFlow.async_step_user DEFAULT_HOST unique_id None n
    = (Return (ConfigFlow.show_form "user" [] DEFAULT_HOST), None)
    /\ forall input : ConfigFlow.UserInput,
        let host := ConfigFlow.CONF_HOST input in
        let st0 := {| self := __init__ host (ConfigFlow.CONF_PASSWORD input);
                      net := n |} in
        exists st,
          ConfigFlow.async_step_user DEFAULT_HOST unique_id (Some input) n
          = (Return
               (match fst (async_update st0), unique_id host with
                | Return (JObj d), Return _ =>
                    if existsb truthy (map snd d)
                    then ConfigFlow.create_entry
                           ("ZTE Router (" ++ host ++ ")") input
                    else ConfigFlow.show_form "user" ConfigFlow.cannot_connect
                           DEFAULT_HOST
                | _, _ =>
                    ConfigFlow.show_form "user" ConfigFlow.cannot_connect
                      DEFAULT_HOST
                end),
             Some st)
          /\ _session (self st) = Closed
          /\ net st = net (snd (async_update st0)).
Proof.
  intros D u n. split; [reflexivity|]. intros input host st0.
  exists (snd (close (snd (async_update st0)))).
  unfold ConfigFlow.async_step_user. fold host. fold st0.
  rewrite test_connection_eq. fold host. unfold connection_verdict.
  split; [|split].
  - destruct (fst (async_update st0)) as [[| | | | | |d]|e]; try reflexivity.
    destruct (u host); [|reflexivity].
    destruct (existsb truthy (map snd d)); reflexivity.
  - rewrite close_eq. cbn [snd self _session set__session].
    rewrite async_update_eq.
    now rewrite (update_spec_opens st0 UNAUTHENTICATED_SESSION eq_refl).
  - now rewrite close_eq.
Qed.

(** X12. With input for a router that cannot be reached (every transport
    operation fails), the user step shows the form with [cannot_connect],
    with or without a password. *)
Theorem user_step_offline :
  forall (DEFAULT_HOST : string) (unique_id : string -> outcome unit)
         (input : ConfigFlow.UserInput) (n : Net),
    offline n ->
    fst (ConfigFlow.async_step_user DEFAULT_HOST unique_id (Some input) n)
    = Return (ConfigFlow.show_form "user" ConfigFlow.cannot_connect
                DEFAULT_HOST).
Proof.
  intros D u input n Hoff. unfold ConfigFlow.async_step_user.
  rewrite test_connection_eq.
  rewrite (update_offline
             {| self := __init__ (ConfigFlow.CONF_HOST input)
                          (ConfigFlow.CONF_PASSWORD input);
                net := n |} UNAUTHENTICATED_SESSION Hoff eq_refl).
  unfold connection_verdict, empty_snapshot.
  destruct (u (ConfigFlow.CONF_HOST input)); reflexivity.
Qed.

Lemma user_step_offline_witness :
  fst (ConfigFlow.async_step_user "192.168.0.1" (fun _ => Return tt)
         (Some {| ConfigFlow.CONF_HOST := "192.168.0.1";
                  ConfigFlow.CONF_PASSWORD := Some "pass" |})
         {| script := [(1700000000000, Fails)]; sent := [] |})
  = Return (ConfigFlow.show_form "user" ConfigFlow.cannot_connect
              "192.168.0.1").
Proof.
  apply (user_step_offline "192.168.0.1" (fun _ => Return tt)).
  repeat constructor.
Defined.

(** ** Sensors *)

Lemma native_value_reads (float : string -> option spec_float)
    (key name section field : string) (fields d : dict) :
  get_default section (JObj []) fields = JObj d ->
  exists v,
    Sensor.native_value float (Sensor.reads key name section field)
      (JObj fields) = Return v
    /\ v <> JStr ""
    /\ (lookup field d = None -> v = JNull).
Proof.
  intros Hsec. unfold Sensor.native_value, Sensor.reads, Sensor.field_of.
  cbn [Sensor.value_fn py_get]. rewrite Hsec. cbn [py_get].
  unfold get_default.
  destruct (lookup field d) as [x|].
  2: { exists JNull. split; [reflexivity|]. split; [discriminate|reflexivity]. }
  destruct x as [| | | |s| |];
    try (eexists; split; [reflexivity|]; split; [discriminate|];
         intros H; discriminate H).
  destruct (s =? "")%string eqn:Hs0.
  - exists JNull. split; [reflexivity|]. split; [discriminate|reflexivity].
  - destruct (float s) as [x|].
    + exists (JFloat x). split; [reflexivity|]. split; [discriminate|].
      intros H. discriminate H.
    + exists (JStr s). split; [reflexivity|]. split.
      * intros [= ->]. discriminate Hs0.
      * intros H. discriminate H.
Qed.

Lemma native_value_wifi (float : string -> option spec_float)
    (fields d : dict) :
  get_default "wlan_info" (JObj []) fields = JObj d ->
  exists v,
    Sensor.native_value float
      {| Sensor.key := "wifi_status"; Sensor.name := "WiFi Status";
         Sensor.value_fn := Some Sensor.wifi_status |} (JObj fields)
    = Return v
    /\ v <> JStr "" /\ v <> JNull.
Proof.
  intros Hsec. unfold Sensor.native_value, Sensor.wifi_status, Sensor.field_of.
  cbn [Sensor.value_fn py_get]. rewrite Hsec. cbn [py_get].
  destruct (eq_str _ _); cbn [String.eqb Ascii.eqb Bool.eqb].
  - destruct (float "On"); eexists; repeat split; discriminate.
  - destruct (float "Off"); eexists; repeat split; discriminate.
Qed.

Lemma section_default (fields : dict) (section : string) :
  sections_are_objects fields ->
  exists d, get_default section (JObj []) fields = JObj d.
Proof.
  intros H. unfold get_default.
  destruct (lookup section fields) as [v|] eqn:Hl; [|now exists []].
  exact (H section v Hl).
Qed.

(** X13. On data whose sections are objects (missing sections included),
    no sensor of the table raises, none ever reports the empty string, and
    the WiFi status is never [None]: it reads On or Off whatever the data. *)
Theorem sensors_on_object_sections :
  forall (float : string -> option spec_float) (fields : dict),
    sections_are_objects fields ->
    Forall (fun description =>
              exists v,
                Sensor.native_value float description (JObj fields)
                = Return v
                /\ v <> JStr ""
                /\ (Sensor.key description = "wifi_status" -> v <> JNull))
      Sensor.SENSORS.
Proof.
  intros float fields Hobj. unfold Sensor.SENSORS.
  repeat (apply Forall_cons;
          [first
             [ match goal with
               | |- context [Sensor.reads ?k ?n ?s ?f] =>
                   destruct (section_default fields s Hobj) as [d Hd];
                   destruct (native_value_reads float k n s f fields d Hd)
                     as [v [Hv [Hne _]]];
                   exists v; repeat split; [exact Hv | exact Hne |];
                   cbn [Sensor.key Sensor.reads]; discriminate
               end
             | destruct (section_default fields "wlan_info" Hobj) as [d Hd];
               destruct (native_value_wifi float fields d Hd)
                 as [v [Hv [Hne Hnn]]];
               exists v; repeat split; [exact Hv | exact Hne |];
               intros _; exact Hnn ]
          |]).
  apply Forall_nil.
Qed.

Lemma sensors_on_object_sections_witness :
  Forall (fun description =>
            exists v,
              Sensor.native_value (fun _ => None) description
                (JObj [("wlan_info", JObj [("wifi_onoff", JStr "1")])])
              = Return v
              /\ v <> JStr ""
              /\ (Sensor.key description = "wifi_status" -> v <> JNull))
    Sensor.SENSORS.
Proof.
  apply (sensors_on_object_sections (fun _ => None)
           [("wlan_info", JObj [("wifi_onoff", JStr "1")])]).
  intros section v. cbn [lookup].
  destruct (String.eqb "wlan_info" section); [|discriminate].
  intros [= <-]. eexists. reflexivity.
Defined.

(** X14. A sensor's reading function, applied to the snapshot of an update,
    gives the field of the payload at the section's position in the batch
    ([None] when the field is absent or the payload is falsy), and raises
    [AttributeError] when that payload is truthy without being an object. *)
Theorem sensor_reads_payload_field :
  forall (r0 r1 r2 r3 r4 r : value) (i : nat) (section field : string),
    nth_error sections i = Some section ->
    nth_error [r0; r1; r2; r3; r4] i = Some r ->
    Sensor.field_of section field (snapshot r0 r1 r2 r3 r4)
    = match or_empty r with
      | JObj d => Return (get_default field JNull d)
      | _ => Raise AttributeError
      end.
Proof.
  intros r0 r1 r2 r3 r4 r i section field Hs Hr.
  do 5 (destruct i as [|i];
        [cbn in Hs, Hr; injection Hs as <-; injection Hr as <-;
         unfold Sensor.field_of, snapshot; cbn [py_get get_default lookup
           String.eqb Ascii.eqb Bool.eqb];
         destruct (or_empty _); reflexivity|]).
  destruct i; discriminate.
Qed.

Lemma sensor_reads_payload_field_witness :
  Sensor.field_of "network_info" "lte_rsrp"
    (snapshot (JObj []) (JObj [("lte_rsrp", JStr "-97")]) JNull JNull JNull)
  = Return (JStr "-97").
Proof.
  apply (sensor_reads_payload_field
           (JObj []) (JObj [("lte_rsrp", JStr "-97")]) JNull JNull JNull
           (JObj [("lte_rsrp", JStr "-97")]) 1 "network_info" "lte_rsrp").
  - reflexivity.
  - reflexivity.
Defined.

(** X15. When the router cannot be reached, the update of a client whose
    token is a string returns data on which every sensor of the table is
    unavailable, except the WiFi status, which is available and reads Off
    ([float] rejecting that word). *)
Theorem sensors_of_an_offline_router :
  forall (st : State) (token : string) (float : string -> option spec_float),
    offline (net st) ->
    session_id (self st) = JStr token ->
    float "Off" = None ->
    exists data,
      fst (async_update st) = Return data
      /\ Forall (fun description =>
                   Sensor.available float true description data
                   = Return (String.eqb (Sensor.key description) "wifi_status"))
           Sensor.SENSORS
      /\ Forall (fun description =>
                   Sensor.native_value float description data
                   = Return (if String.eqb (Sensor.key description) "wifi_status"
                             then JStr "Off" else JNull))
           Sensor.SENSORS.
Proof.
  intros st token float Hoff Hs Hfloat. exists empty_snapshot.
  split; [exact (update_offline st token Hoff Hs)|].
  unfold Sensor.SENSORS.
  split;
    repeat (apply Forall_cons; [cbn; rewrite ?Hfloat; reflexivity|]);
    apply Forall_nil.
Qed.

Lemma sensors_of_an_offline_router_witness :
  exists data,
    fst (async_update (fresh "192.168.0.1" None [])) = Return data
    /\ Forall (fun description =>
                 Sensor.available (fun _ => None) true description data
                 = Return (String.eqb (Sensor.key description) "wifi_status"))
         Sensor.SENSORS
    /\ Forall (fun description =>
                 Sensor.native_value (fun _ => None) description data
                 = Return (if String.eqb (Sensor.key description) "wifi_status"
                           then JStr "Off" else JNull))
         Sensor.SENSORS.
Proof.
  apply (sensors_of_an_offline_router (fresh "192.168.0.1" None [])
           UNAUTHENTICATED_SESSION (fun _ => None)).
  - constructor.
  - reflexivity.
  - reflexivity.
Defined.

(** ** Batch results *)

(** X16. When the response array can be read to its end (every error
    member an object), a batch reports one result per item of the response,
    in the order of the response, and the result at a position depends on
    the item at that position alone: [None] for an item that is no object
    or has an [error] member, index 1 of its [result] array otherwise
    ([None] when that array is missing or shorter than two). *)
Theorem batch_results_follow_items :
  forall (calls : list call) (st : State) (items : list value),
    next_reply (net st) = Body (JList items) ->
    forallb error_is_object items = true ->
    exists results,
      fst (_call_api_batch calls st) = Return results
      /\ List.length results = List.length items
      /\ forall (i : nat) (item : value),
           nth_error items i = Some item ->
           nth_error results i
           = Some (match item with
                   | JObj d =>
                       match lookup "error" d, lookup "result" d with
                       | None, Some (JList (_ :: payload :: _)) => payload
                       | _, _ => JNull
                       end
                   | _ => JNull
                   end).
Proof.
  intros calls st items Hr Hok. exists (map item_result items).
  rewrite _call_api_batch_eq, Hr. cbn [fst]. unfold batch_report.
  rewrite Hok. split; [reflexivity|]. split; [apply length_map|].
  intros i item Hi. rewrite nth_error_map, Hi. cbn [option_map]. f_equal.
  destruct item as [| | | | | |d]; try reflexivity.
  unfold item_result, get_default.
  destruct (lookup "error" d); [reflexivity|].
  destruct (lookup "result" d) as [[| | | | |[|x [|y l]]|]|]; reflexivity.
Qed.

Lemma batch_results_follow_items_witness :
  exists results,
    fst (_call_api_batch [("zwrt_wlan", "report", None)]
           (logged_in "T1"
              [(1700000000000,
                Body (JList [ok_item (JStr "a"); denied_item; JInt 7]))]))
    = Return results
    /\ List.length results = 3%nat
    /\ forall (i : nat) (item : value),
         nth_error [ok_item (JStr "a"); denied_item; JInt 7] i = Some item ->
         nth_error results i
         = Some (match item with
                 | JObj d =>
                     match lookup "error" d, lookup "result" d with
                     | None, Some (JList (_ :: payload :: _)) => payload
                     | _, _ => JNull
                     end
                 | _ => JNull
                 end).
Proof.
  apply (batch_results_follow_items [("zwrt_wlan", "report", None)]
           (logged_in "T1"
              [(1700000000000,
                Body (JList [ok_item (JStr "a"); denied_item; JInt 7]))])
           [ok_item (JStr "a"); denied_item; JInt 7]).
  - reflexivity.
  - reflexivity.
Defined.

(** X17. When the transport fails, the body is no array, or some error
    member of the array is not an object, a batch reports [None] once per
    descriptor and leaves the token as it was; the request ids of its
    envelopes are used up all the same. *)
Theorem failed_batch_is_all_none :
  forall (calls : list call) (st : State),
    (forall items,
        next_reply (net st) = Body (JList items) ->
        forallb error_is_object items = false) ->
    let out := _call_api_batch calls st in
    fst out = Return (repeat JNull (List.length calls))
    /\ session_id (self (snd out)) = session_id (self st)
    /\ _request_id (self (snd out))
       = _request_id (self st) + Z.of_nat (List.length calls).
Proof.
  intros calls st H out. subst out. rewrite _call_api_batch_eq. cbn [fst snd].
  split; [f_equal; now apply batch_report_padded|].
  assert (He : expired (next_reply (net st)) (self st) = false).
  { unfold expired, errors_are_objects, denied_in.
    destruct (next_reply (net st)) as [|[| | | | |items|]]; try reflexivity.
    now rewrite (H items eq_refl). }
  rewrite He. split; reflexivity.
Qed.

Lemma failed_batch_is_all_none_witness :
  fst (_call_api_batch (update_calls "router_get_status")
         (logged_in "T1" [(1700000000000, Body (JStr "busy"))]))
  = Return [JNull; JNull; JNull; JNull; JNull].
Proof.
  apply (failed_batch_is_all_none (update_calls "router_get_status")
           (logged_in "T1" [(1700000000000, Body (JStr "busy"))])).
  intros items H. discriminate H.
Defined.

(** ** Login inside an update *)



(** X19. An update whose login fails goes on without a session: it still
    posts its batch, under the sentinel and asking
    [router_get_status_no_auth], right after whatever the login posted. *)
Theorem update_goes_on_after_failed_login :
  forall st : State,
    has_password (self st) = true ->
    session_id (self st) = JStr UNAUTHENTICATED_SESSION ->
    fst (async_login st) = Return false ->
    let st1 := snd (async_login st) in
    sent (net (snd (async_update st)))
    = (sent (net st1)
       ++ [(url_of st1,
            JList (envelopes (JStr UNAUTHENTICATED_SESSION)
                     (_request_id (self st1))
                     (update_calls "router_get_status_no_auth")))])%list.
Proof.
  intros st Hp Hs Hfail st1. subst st1.
  assert (Htok : session_id (self (snd (login_spec st)))
                 = JStr UNAUTHENTICATED_SESSION).
  { revert Hfail. rewrite async_login_eq. cbn [fst]. unfold login_spec.
    destruct (password (self st)) as [pw|]; [|intros _; exact Hs].
    destruct (pw =? "")%string; [intros _; exact Hs|].
    destruct (salt_of _); [|intros _; exact Hs].
    destruct (accepted _); [discriminate|intros _; exact Hs]. }
  rewrite async_update_eq, async_login_eq. cbn [snd].
  unfold update_spec, after_login_step. rewrite Hp, Hs. cbn [eq_str].
  rewrite String.eqb_refl. cbn [andb]. rewrite Htok.
  unfold router_method, authenticated, expired. rewrite Htok.
  cbn [eq_str]. rewrite String.eqb_refl. cbn [negb].
  unfold authenticated. rewrite Htok. cbn [eq_str].
  rewrite String.eqb_refl. cbn [negb]. rewrite andb_false_r.
  cbn [snd posted net sent]. rewrite Htok. reflexivity.
Qed.

Lemma update_goes_on_after_failed_login_witness :
  map snd
    (sent (net (snd (async_update
                       (fresh "192.168.0.1" (Some "pass") [])))))
  = [ JList [envelope (JStr UNAUTHENTICATED_SESSION) 1 login_info_call];
      JList (envelopes (JStr UNAUTHENTICATED_SESSION) 2
               (update_calls "router_get_status_no_auth")) ].
Proof.
  rewrite (update_goes_on_after_failed_login
             (fresh "192.168.0.1" (Some "pass") [])).
  - reflexivity.
  - reflexivity.
  - reflexivity.
  - reflexivity.
Defined.

(** ** Entity ids *)

Lemma append_injective (p a b : string) : p ++ a = p ++ b -> a = b.
Proof.
  induction p as [|c p IH]; cbn [String.append]; [auto|].
  intros [= H]. exact (IH H).
Qed.

(** X20. Whatever the id of the config entry, the unique ids of the
    entities set up for it (entry id, underscore, sensor key) are pairwise
    distinct, one per sensor of the table. *)
Theorem entity_ids_are_distinct :
  forall entry_id : string,
    NoDup (Sensor.entity_ids entry_id)
    /\ List.length (Sensor.entity_ids entry_id)
       = List.length Sensor.SENSORS.
Proof.
  intros entry_id. split; [|apply length_map].
  unfold Sensor.entity_ids.
  assert (Hkeys : NoDup (map Sensor.key Sensor.SENSORS)).
  { assert (H : nodup string_dec (map Sensor.key Sensor.SENSORS)
                = map Sensor.key Sensor.SENSORS) by (vm_compute; reflexivity).
    rewrite <- H. apply NoDup_nodup. }
  assert (Hmap : map (Sensor.unique_id entry_id) Sensor.SENSORS
                 = map (fun k => entry_id ++ "_" ++ k)
                     (map Sensor.key Sensor.SENSORS))
    by (rewrite map_map; reflexivity).
  rewrite Hmap. apply Finite.Injective_map_NoDup; [|exact Hkeys].
  intros a b H. apply append_injective in H.
  exact (append_injective "_" a b H).
Qed.
